(** * A.E.G.I.S Fast Brain: a model of the wrapper, the download helper and
      the test harness, with the properties of their specification.

    The Python sources are embedded as functions of a state-and-exception
    monad over an explicit world: the filesystem, the object heap, the
    state of the external libraries (llama.cpp, the model hub), the clock
    and the trace of observable events.  The external libraries are an
    interface ([Environment]); everything proved holds for each of its
    implementations. *)

From Stdlib Require Import QArith Ascii String.
From stdpp Require Import base option list strings gmap fin_maps.

Local Open Scope Z_scope.
Local Open Scope list_scope.

(** ** Python strings *)

(** A Python [str] is a sequence of Unicode code points. *)
Abbreviation pystr := (list N).

(** The code point sequence of an ASCII literal of the sources. *)
Definition lit (s : string) : pystr :=
  (λ a, N_of_ascii a) <$> list_ascii_of_string s.

(** [Py_UNICODE_ISSPACE]: the code points that [str.strip()] removes. *)
Definition isspace (c : N) : bool :=
  ((9 <=? c) && (c <=? 13) || (28 <=? c) && (c <=? 32)
   || (c =? 133) || (c =? 160) || (c =? 5760)
   || (8192 <=? c) && (c <=? 8202)
   || (c =? 8232) || (c =? 8233) || (c =? 8239) || (c =? 8287)
   || (c =? 12288))%N.

Fixpoint lstrip (s : pystr) : pystr :=
  match s with
  | c :: s' => if isspace c then lstrip s' else s
  | [] => []
  end.

Definition rstrip (s : pystr) : pystr := reverse (lstrip (reverse s)).

(** [s.strip()] *)
Definition strip (s : pystr) : pystr := rstrip (lstrip s).

Definition is_ascii (c : N) : bool := (c <? 128)%N.

Definition ascii_lower (c : N) : N :=
  if ((65 <=? c) && (c <=? 90))%N then (c + 32)%N else c.

(** [sep.join(xs)] *)
Fixpoint join (sep : pystr) (xs : list pystr) : pystr :=
  match xs with
  | [] => []
  | [x] => x
  | x :: xs' => x ++ sep ++ join sep xs'
  end.

(** [s.split(sep)] for a one-character separator: the fields between the
    occurrences of [sep], empty ones included. *)
Fixpoint split_on (sep : N) (s : pystr) : list pystr :=
  match s with
  | [] => [[]]
  | c :: s' =>
      if (c =? sep)%N then [] :: split_on sep s'
      else match split_on sep s' with
           | f :: fs => (c :: f) :: fs
           | [] => [[c]]
           end
  end.

(** ** pathlib *)

(** A pure POSIX path: whether it is anchored at the root, and its
    components. *)
Record Path := mkPath { absolute : bool; parts : list pystr }.

#[global] Instance Path_eq_dec : EqDecision Path.
Proof. solve_decision. Defined.

#[global] Instance Path_countable : Countable Path.
Proof.
  apply (inj_countable' (λ p, (absolute p, parts p))
                        (λ x, mkPath x.1 x.2)).
  by intros [].
Defined.

Definition slash : N := 47.
Definition dot : pystr := [46%N].

(** [Path(s)]: empty and [.] components are dropped. *)
Definition Path_of_str (s : pystr) : Path :=
  {| absolute := match s with c :: _ => (c =? slash)%N | [] => false end;
     parts := filter (λ f, f ≠ [] ∧ f ≠ dot) (split_on slash s) |}.

(** [str(p)] *)
Definition path_str (p : Path) : pystr :=
  if absolute p then slash :: join [slash] (parts p)
  else match parts p with
       | [] => dot
       | _ => join [slash] (parts p)
       end.

(** [p / s] *)
Definition path_div (p : Path) (s : pystr) : Path :=
  let q := Path_of_str s in
  if absolute q then q
  else {| absolute := absolute p; parts := parts p ++ parts q |}.

Infix "/:" := path_div (at level 40, left associativity).

(** [p.parent] *)
Definition parent (p : Path) : Path :=
  {| absolute := absolute p; parts := removelast (parts p) |}.

(** The non-empty prefixes of a list, shortest first. *)
Fixpoint prefixes {A} (l : list A) : list (list A) :=
  match l with
  | [] => []
  | x :: l' => [x] :: ((x ::.) <$> prefixes l')
  end.

(** The ancestors of a path below its anchor and the path itself,
    outermost first. *)
Definition lineage (p : Path) : list Path :=
  mkPath (absolute p) <$> prefixes (parts p).

(** ** Exceptions and results *)

(** The exceptions of the modelled code.  [Raised e] is an exception of an
    external library (llama.cpp, the model hub client), whose payload [e]
    the modelled code never inspects. *)
Inductive exn (E : Type) : Type :=
  | FileNotFoundError (msg : pystr)
  | FileExistsError (p : Path)
  | NotADirectoryError (p : Path)
  | IndexError
  | AttributeError (name : string)
  | ZeroDivisionError
  | SystemExit (code : Z)
  | Raised (e : E).
Arguments FileNotFoundError {E} msg.
Arguments FileExistsError {E} p.
Arguments NotADirectoryError {E} p.
Arguments IndexError {E}.
Arguments AttributeError {E} name.
Arguments ZeroDivisionError {E}.
Arguments SystemExit {E} code.
Arguments Raised {E} e.

Inductive result (E A : Type) : Type :=
  | Ok (a : A)
  | Err (e : exn E).
Arguments Ok {E A} a.
Arguments Err {E A} e.

(** ** Data exchanged with the inference engine *)

(** [{"role": ..., "content": ...}] *)
Record Message := mkMessage { role : pystr; content : pystr }.

(** The keyword arguments of [Llama(...)]. *)
Record LoadArgs := mkLoadArgs {
  la_model_path : pystr;
  la_n_gpu_layers : Z;
  la_n_ctx : Z;
  la_verbose : bool }.

(** The keyword arguments of [create_chat_completion(...)]. *)
Record ChatRequest := mkChatRequest {
  messages : list Message;
  temperature : Q;
  top_p : Q;
  max_tokens : Z }.

Record Choice := mkChoice { message : Message }.
Record Usage := mkUsage { completion_tokens : Z }.

(** The engine's completion: [result["choices"]] and [result["usage"]]. *)
Record Completion := mkCompletion { choices : list Choice; usage : Usage }.

(** ** The world *)

Inductive entry := File | Dir.

Inductive LogLevel := DEBUG | INFO | ERROR.

Inductive LogArg :=
  | AStr (s : pystr)
  | APath (p : Path)
  | AInt (n : Z)
  | ANum (q : Q).

(** One line typed at the [input()] prompt, or what interrupts it. *)
Inductive Keyboard :=
  | Line (s : pystr)
  | KeyboardInterrupt
  | EOFError.

(** The external libraries and the runtime, as the sources use them. *)
Class Environment := {
  (** internal state of the engine and of the model hub *)
  ExtState : Type;
  (** exceptions of the external libraries *)
  ExtExn : Type;
  (** a loaded [Llama] object *)
  Handle : Type;
  (** [Llama(model_path=..., n_gpu_layers=..., n_ctx=..., verbose=...)] *)
  Llama : LoadArgs → ExtState → result ExtExn Handle * ExtState;
  (** [llm.create_chat_completion(messages=..., ...)] *)
  create_chat_completion :
    Handle → ChatRequest → ExtState → result ExtExn Completion * ExtState;
  (** [hf_hub_download(repo_id=..., filename=..., local_dir=...)] *)
  hf_hub_download :
    pystr → pystr → Path → ExtState → gmap Path entry →
    result ExtExn pystr * ExtState * gmap Path entry;
  (** the successive readings of [time.monotonic()]; a [float] of the
      sources is a rational here, and its arithmetic is exact *)
  monotonic : nat → Q;
  (** [str.lower()] on a string with code points outside ASCII *)
  unicode_lower : pystr → pystr;
  (** [Path(__file__).resolve()] in [fast_brain.py] *)
  fast_brain_file : Path;
  (** [Path(__file__).resolve()] in [download_models.py] *)
  download_models_file : Path }.

Section Model.
Context `{Env : Environment}.

(** The attributes of a [FastBrain] object; [None] is an attribute that is
    not set yet. *)
Record FastBrainObj := mkFastBrainObj {
  model_path : option Path;
  llm : option Handle }.

(** What the program does to the outside. *)
Inductive Event :=
  | EvLog (level : LogLevel) (fmt : string) (args : list LogArg)
  | EvPrint (s : pystr)
  | EvInput (prompt : pystr)
  | EvLoad (args : LoadArgs)
  | EvChat (h : Handle) (req : ChatRequest)
  | EvMkdir (p : Path)
  | EvDownload (repo_id filename : pystr) (local_dir : Path).

Record World := mkWorld {
  fs : gmap Path entry;
  heap : gmap nat FastBrainObj;
  ext : ExtState;
  ticks : nat;
  trace : list Event }.

(** ** The monad: state, and exceptions that keep the state *)

Definition M (A : Type) : Type := World → result ExtExn A * World.

Definition ret {A} (a : A) : M A := λ w, (Ok a, w).

Definition bind {A B} (m : M A) (k : A → M B) : M B :=
  λ w, match m w with
       | (Ok a, w') => k a w'
       | (Err e, w') => (Err e, w')
       end.

Definition raise {A} (e : exn ExtExn) : M A := λ w, (Err e, w).

Notation "'let!' x ':=' m 'in' k" := (bind m (λ x, k))
  (at level 10, x name, m at level 100, k at level 200).
Notation "'do!' m 'in' k" := (bind m (λ _, k))
  (at level 10, m at level 100, k at level 200).

Definition emit (ev : Event) : M unit :=
  λ w, (Ok (), mkWorld (fs w) (heap w) (ext w) (ticks w) (trace w ++ [ev])).

Definition log (level : LogLevel) (fmt : string) (args : list LogArg)
  : M unit := emit (EvLog level fmt args).

Definition print (s : pystr) : M unit := emit (EvPrint s).

(** [time.monotonic()] *)
Definition time_monotonic : M Q :=
  λ w, (Ok (monotonic (ticks w)),
        mkWorld (fs w) (heap w) (ext w) (S (ticks w)) (trace w)).

(** [p.exists()] *)
Definition path_exists (p : Path) : M bool :=
  λ w, (Ok (bool_decide (is_Some (fs w !! p))), w).

(** [object.__new__]: a fresh object with no attribute set. *)
Definition new_object : M nat :=
  λ w, let l := fresh (dom (heap w)) in
       (Ok l, mkWorld (fs w) (<[l := mkFastBrainObj None None]> (heap w))
                      (ext w) (ticks w) (trace w)).

Definition set_model_path (self : nat) (p : Path) : M unit :=
  λ w, (Ok (),
        mkWorld (fs w)
          (alter (λ o, mkFastBrainObj (Some p) (llm o)) self (heap w))
          (ext w) (ticks w) (trace w)).

Definition set_llm (self : nat) (h : Handle) : M unit :=
  λ w, (Ok (),
        mkWorld (fs w)
          (alter (λ o, mkFastBrainObj (model_path o) (Some h)) self (heap w))
          (ext w) (ticks w) (trace w)).

Definition get_model_path (self : nat) : M Path :=
  λ w, match heap w !! self ≫= model_path with
       | Some p => (Ok p, w)
       | None => (Err (AttributeError "model_path"), w)
       end.

Definition get_llm (self : nat) : M Handle :=
  λ w, match heap w !! self ≫= llm with
       | Some h => (Ok h, w)
       | None => (Err (AttributeError "llm"), w)
       end.

(** Calls into the external libraries: the call is recorded, the library
    runs on its own state, and its exception, if any, is the exception of
    the call. *)
Definition call_Llama (args : LoadArgs) : M Handle :=
  do! emit (EvLoad args) in
  λ w, match Llama args (ext w) with
       | (Ok h, x) => (Ok h, mkWorld (fs w) (heap w) x (ticks w) (trace w))
       | (Err e, x) => (Err e, mkWorld (fs w) (heap w) x (ticks w) (trace w))
       end.

Definition call_create_chat_completion (h : Handle) (req : ChatRequest)
  : M Completion :=
  do! emit (EvChat h req) in
  λ w, match create_chat_completion h req (ext w) with
       | (Ok c, x) => (Ok c, mkWorld (fs w) (heap w) x (ticks w) (trace w))
       | (Err e, x) => (Err e, mkWorld (fs w) (heap w) x (ticks w) (trace w))
       end.

Definition call_hf_hub_download (repo_id filename : pystr) (local_dir : Path)
  : M pystr :=
  do! emit (EvDownload repo_id filename local_dir) in
  λ w, match hf_hub_download repo_id filename local_dir (ext w) (fs w) with
       | (Ok s, x, f) => (Ok s, mkWorld f (heap w) x (ticks w) (trace w))
       | (Err e, x, f) => (Err e, mkWorld f (heap w) x (ticks w) (trace w))
       end.

(** [a / b] for an [int] and a [float]. *)
Definition truediv (a : Z) (b : Q) : M Q :=
  if Qeq_bool b 0 then raise ZeroDivisionError else ret (inject_Z a / b)%Q.

(** [l[0]] *)
Definition index0 {A} (l : list A) : M A :=
  match l with
  | x :: _ => ret x
  | [] => raise IndexError
  end.

(** [sys.exit(code)] *)
Definition sys_exit {A} (code : Z) : M A := raise (SystemExit code).

(** ** src/core/prompts.py *)

Definition AEGIS_SYSTEM_PROMPT : pystr :=
  lit "You are A.E.G.I.S, a private, secure, local AI assistant. "
  ++ lit "You are concise, helpful, and technical.".

(** ** src/core/brains/fast_brain.py *)

Definition _PROJECT_ROOT : Path :=
  parent (parent (parent (parent fast_brain_file))).

Definition DEFAULT_MODEL_PATH : Path :=
  _PROJECT_ROOT /: lit "models" /: lit "fast_brain"
  /: lit "Meta-Llama-3.1-8B-Instruct-Q4_K_M.gguf".

(** [model_path or DEFAULT_MODEL_PATH]: a [Path] object is always true, so
    only [None] selects the default. *)
Definition model_path_or_default (model_path : option Path) : Path :=
  match model_path with
  | Some p => p
  | None => DEFAULT_MODEL_PATH
  end.

(** The defaults of the signature of [FastBrain.__init__]. *)
Definition default_n_gpu_layers : Z := -1.
Definition default_n_ctx : Z := 4096.

(** [FastBrain.__init__(self, model_path, n_gpu_layers, n_ctx)] *)
Definition FastBrain__init__
    (self : nat) (model_path : option Path) (n_gpu_layers n_ctx : Z)
  : M unit :=
  do! set_model_path self (model_path_or_default model_path) in
  let! p := get_model_path self in
  let! found := path_exists p in
  if negb found then
    let! p := get_model_path self in
    raise (FileNotFoundError
             (lit "Model not found at " ++ path_str p ++ lit ". "
              ++ lit "Run 'python scripts/download_models.py' first."))
  else
    let! p := get_model_path self in
    do! log INFO "Loading Fast Brain model: %s" [APath p] in
    let! load_start := time_monotonic in
    let! p := get_model_path self in
    let! h := call_Llama (mkLoadArgs (path_str p) n_gpu_layers n_ctx false) in
    do! set_llm self h in
    let! t := time_monotonic in
    let load_elapsed := (t - load_start)%Q in
    log INFO "Fast Brain loaded in %.2f seconds." [ANum load_elapsed].

(** [FastBrain(...)]: an argument that the call leaves out is [None] here
    and takes the default of the signature. *)
Definition FastBrain
    (model_path : option Path) (n_gpu_layers n_ctx : option Z) : M nat :=
  let! self := new_object in
  do! FastBrain__init__ self model_path
        (default default_n_gpu_layers n_gpu_layers)
        (default default_n_ctx n_ctx) in
  ret self.

(** The defaults of the signature of [generate_response]. *)
Definition default_system_prompt : pystr := AEGIS_SYSTEM_PROMPT.
Definition default_temperature : Q := 0.7.
Definition default_top_p : Q := 0.9.
Definition default_max_tokens : Z := 1024.

(** [tokens_per_sec = token_count / elapsed if elapsed > 0 else 0.0] *)
Definition tokens_per_sec (token_count : Z) (elapsed : Q) : M Q :=
  if negb (Qle_bool elapsed 0) then truediv token_count elapsed else ret 0%Q.

(** [self.generate_response(user_input, system_prompt, temperature, top_p,
    max_tokens)], with [None] for an argument that the call leaves out. *)
Definition generate_response
    (self : nat) (user_input : pystr) (system_prompt : option pystr)
    (temperature top_p : option Q) (max_tokens : option Z) : M pystr :=
  let system_prompt := default default_system_prompt system_prompt in
  let temperature := default default_temperature temperature in
  let top_p := default default_top_p top_p in
  let max_tokens := default default_max_tokens max_tokens in
  let messages :=
    [ mkMessage (lit "system") system_prompt;
      mkMessage (lit "user") user_input ] in
  do! log DEBUG "Generating response for: %.80s..." [AStr user_input] in
  let! start := time_monotonic in
  let! h := get_llm self in
  let! result :=
    call_create_chat_completion h
      (mkChatRequest messages temperature top_p max_tokens) in
  let! t := time_monotonic in
  let elapsed := (t - start)%Q in
  let! choice := index0 (choices result) in
  let response_text := content (message choice) in
  let token_count := completion_tokens (usage result) in
  let! tps := tokens_per_sec token_count elapsed in
  do! log INFO "Generated %d tokens in %.2fs (%.1f t/s)"
        [AInt token_count; ANum elapsed; ANum tps] in
  ret response_text.

(** ** scripts/download_models.py *)

Definition REPO_ID : pystr := lit "bartowski/Meta-Llama-3.1-8B-Instruct-GGUF".
Definition FILENAME : pystr := lit "Meta-Llama-3.1-8B-Instruct-Q4_K_M.gguf".

Definition PROJECT_ROOT : Path := parent (parent download_models_file).
Definition MODEL_DIR : Path := PROJECT_ROOT /: lit "models" /: lit "fast_brain".

(** One directory of [mkdir(parents=True, exist_ok=True)]: an existing
    directory is kept, a missing one is created, and a file in the way is
    an error ([last] tells the target from its ancestors). *)
Definition mkdir_one (q : Path) (last : bool) : M unit :=
  λ w, match fs w !! q with
       | Some Dir => (Ok (), w)
       | Some File =>
           (Err (if last then FileExistsError q else NotADirectoryError q), w)
       | None =>
           (Ok (), mkWorld (<[q := Dir]> (fs w)) (heap w) (ext w) (ticks w)
                           (trace w))
       end.

Fixpoint mkdirs (qs : list Path) : M unit :=
  match qs with
  | [] => ret ()
  | q :: qs' =>
      do! mkdir_one q (bool_decide (qs' = [])) in
      mkdirs qs'
  end.

(** [p.mkdir(parents=True, exist_ok=True)] *)
Definition mkdir_parents_exist_ok (p : Path) : M unit :=
  do! emit (EvMkdir p) in
  mkdirs (lineage p).

(** [download_fast_brain_model()] *)
Definition download_fast_brain_model : M Path :=
  let model_path := MODEL_DIR /: FILENAME in
  let! found := path_exists model_path in
  if found then
    do! log INFO "Model already exists: %s" [APath model_path] in
    ret model_path
  else
    do! log INFO "Creating model directory: %s" [APath MODEL_DIR] in
    do! mkdir_parents_exist_ok MODEL_DIR in
    do! log INFO "Downloading %s from %s ..." [AStr FILENAME; AStr REPO_ID] in
    do! log INFO "This may take a while (~4.9 GB)." [] in
    let! downloaded_path := call_hf_hub_download REPO_ID FILENAME MODEL_DIR in
    do! log INFO "Download complete: %s" [AStr downloaded_path] in
    ret (Path_of_str downloaded_path).

(** ** tests/test_fast_brain.py *)

(** [s.lower()]: on an ASCII string the letters [A-Z] are lowered, and a
    string with other code points goes through the Unicode tables. *)
Definition str_lower (s : pystr) : pystr :=
  if forallb is_ascii s then ascii_lower <$> s else unicode_lower s.

Definition newline : ascii := ascii_of_nat 10.

(** The [while True] loop of [run_interactive_loop].  [stdin] is what the
    keyboard still holds; when nothing is left, [input()] raises
    [EOFError]. *)
Fixpoint interactive_loop (brain : nat) (stdin : list Keyboard) : M unit :=
  do! emit (EvInput (10%N :: lit "You: ")) in
  match stdin with
  | Line l :: rest =>
      let user_input := strip l in
      if bool_decide (user_input = []) then
        interactive_loop brain rest
      else if bool_decide (str_lower user_input = lit "quit")
              || bool_decide (str_lower user_input = lit "exit") then
        log INFO "Goodbye." []
      else
        let! start := time_monotonic in
        let! response :=
          generate_response brain user_input None None None None in
        let! t := time_monotonic in
        let elapsed := (t - start)%Q in
        do! print (10%N :: lit "A.E.G.I.S: " ++ response) in
        do! log INFO "(Response time: %.2fs)" [ANum elapsed] in
        interactive_loop brain rest
  | KeyboardInterrupt :: _ | EOFError :: _ | [] =>
      log INFO (String newline "Exiting.") []
  end.

(** [run_interactive_loop(brain)] *)
Definition run_interactive_loop (brain : nat) (stdin : list Keyboard)
  : M unit :=
  do! log INFO "A.E.G.I.S Fast Brain — Interactive Test" [] in
  do! log INFO "Type 'quit' or 'exit' to stop. Ctrl+C also works." [] in
  do! log INFO "--------------------------------------------------" [] in
  interactive_loop brain stdin.

Definition test_prompt : pystr := lit "What is 2 + 2? Answer in one word.".

(** [run_smoke_test(brain)] *)
Definition run_smoke_test (brain : nat) : M bool :=
  do! log INFO "Smoke test prompt: %s" [AStr test_prompt] in
  let! start := time_monotonic in
  let! response := generate_response brain test_prompt None None None None in
  let! t := time_monotonic in
  let elapsed := (t - start)%Q in
  do! log INFO "Response: %s" [AStr response] in
  do! log INFO "Time: %.2fs" [ANum elapsed] in
  if negb (bool_decide (response = []))
     && (0 <? Z.of_nat (length (strip response))) then
    do! log INFO "SMOKE TEST PASSED" [] in
    ret true
  else
    do! log ERROR "SMOKE TEST FAILED — empty response" [] in
    ret false.

(** [main()], from the parsed command line: [smoke] is [args.smoke]. *)
Definition main (smoke : bool) (stdin : list Keyboard) : M unit :=
  do! log INFO "Initialising Fast Brain..." [] in
  let! brain := FastBrain None None None in
  if smoke then
    let! success := run_smoke_test brain in
    sys_exit (if success then 0 else 1)
  else
    run_interactive_loop brain stdin.

(** The exit status of the interpreter: 0 when the script returns, the
    code of [sys.exit], and 1 for an exception that nothing catches. *)
Definition exit_status {A} (r : result ExtExn A) : Z :=
  match r with
  | Ok _ => 0
  | Err (SystemExit code) => code
  | Err _ => 1
  end.

(** ** Observations on a trace *)

(** The model loads that a run attempted. *)
Definition load_calls (evs : list Event) : list LoadArgs :=
  omap (λ ev, match ev with EvLoad a => Some a | _ => None end) evs.

(** The chat completions that a run asked of the engine. *)
Definition chat_calls (evs : list Event) : list (Handle * ChatRequest) :=
  omap (λ ev, match ev with EvChat h r => Some (h, r) | _ => None end) evs.

(** The network transfers that a run started. *)
Definition download_calls (evs : list Event) : list (pystr * pystr * Path) :=
  omap (λ ev, match ev with
              | EvDownload r f d => Some (r, f, d)
              | _ => None
              end) evs.

(** The request that [generate_response] builds from its arguments. *)
Definition request_of
    (user_input : pystr) (system_prompt : option pystr)
    (temperature top_p : option Q) (max_tokens : option Z) : ChatRequest :=
  mkChatRequest
    [ mkMessage (lit "system") (default default_system_prompt system_prompt);
      mkMessage (lit "user") user_input ]
    (default default_temperature temperature)
    (default default_top_p top_p)
    (default default_max_tokens max_tokens).

(** The heap after a successful construction of the object at [l]. *)
Definition constructed
    (m : gmap nat FastBrainObj) (l : nat) (p : Path) (h : Handle)
  : gmap nat FastBrainObj :=
  alter (λ o, mkFastBrainObj (model_path o) (Some h)) l
    (alter (λ o, mkFastBrainObj (Some p) (llm o)) l
       (<[l := mkFastBrainObj None None]> m)).

(** Equality of two strings up to the case of the ASCII letters. *)
Definition caseless_eq (s t : pystr) : Prop :=
  Forall2 (λ a b, ascii_lower a = ascii_lower b) s t.

(** A call of the engine that comes from a line typed at the prompt: the
    user message is the stripped line, which is not empty and is neither
    [quit] nor [exit] in any case. *)
Definition from_typed_line
    (stdin : list Keyboard) (call : Handle * ChatRequest) : Prop :=
  ∃ l, Line l ∈ stdin
       ∧ call.2 = request_of (strip l) None None None None
       ∧ strip l ≠ []
       ∧ ¬ caseless_eq (strip l) (lit "quit")
       ∧ ¬ caseless_eq (strip l) (lit "exit").

End Model.

(** ** A small environment to run the model on *)

Module Demo.

Definition answer (text : pystr) (n : Z) : Completion :=
  mkCompletion [mkChoice (mkMessage (lit "assistant") text)] (mkUsage n).

(** An engine that loads every model and answers every request with
    [text]; the clock advances by [step] at each reading. *)
Definition env (text : pystr) (step : Q) : Environment := {|
  ExtState := nat;
  ExtExn := string;
  Handle := nat;
  Llama := λ _ x, (Ok 7%nat, S x);
  create_chat_completion := λ _ _ x, (Ok (answer text 3), S x);
  hf_hub_download := λ _ f d x files,
    (Ok (path_str (d /: f)), S x, <[d /: f := File]> files);
  monotonic := λ n, (inject_Z (Z.of_nat n) * step)%Q;
  unicode_lower := λ s, s;
  fast_brain_file :=
    Path_of_str (lit "/opt/aegis/src/core/brains/fast_brain.py");
  download_models_file :=
    Path_of_str (lit "/opt/aegis/scripts/download_models.py") |}.

(** An engine whose every operation fails. *)
Definition broken : Environment := {|
  ExtState := nat;
  ExtExn := string;
  Handle := nat;
  Llama := λ _ x, (Err (Raised "CUDA out of memory"), S x);
  create_chat_completion := λ _ _ x,
    (Err (Raised "context window exceeded"), S x);
  hf_hub_download := λ _ _ _ x files, (Err (Raised "offline"), S x, files);
  monotonic := λ n, inject_Z (Z.of_nat n);
  unicode_lower := λ s, s;
  fast_brain_file :=
    Path_of_str (lit "/opt/aegis/src/core/brains/fast_brain.py");
  download_models_file :=
    Path_of_str (lit "/opt/aegis/scripts/download_models.py") |}.

(** An engine that answers [Four], with a clock that ticks every
    second. *)
Definition four : Environment := env (lit "Four") 1.

(** The same engine with a clock that stands still. *)
Definition frozen : Environment := env (lit "Four") 0.

Definition reply : Choice :=
  mkChoice (mkMessage (lit "assistant") (lit "Four")).

Definition root : Path := Path_of_str (lit "/opt/aegis").

Definition model_file : Path :=
  Path_of_str
    (lit "/opt/aegis/models/fast_brain/Meta-Llama-3.1-8B-Instruct-Q4_K_M.gguf").

(** A machine without the model, and one with it. *)
Definition bare (Env : Environment) (x : ExtState) : World :=
  mkWorld ∅ ∅ x 0 [].

Definition installed (Env : Environment) (x : ExtState) : World :=
  mkWorld {[ model_file := File ]} ∅ x 0 [].

(** A machine with the model and a loaded brain at address 0. *)
Definition loaded (Env : Environment) (x : ExtState) (h : Handle) : World :=
  mkWorld {[ model_file := File ]}
          {[ 0%nat := mkFastBrainObj (Some model_file) (Some h) ]} x 0 [].

End Demo.

(** ** scripts/download_models.py: the entry point *)

Section Scripts.
Context `{Env : Environment}.

(** [except Exception] catches everything but the exits of the
    interpreter; [ext_is_exception] tells which exceptions of the external
    libraries derive from [Exception]. *)
Definition is_Exception
    (ext_is_exception : ExtExn → bool) (e : exn ExtExn) : bool :=
  match e with
  | SystemExit _ => false
  | Raised x => ext_is_exception x
  | _ => true
  end.

(** [main()] of [download_models.py] *)
Definition download_models_main (ext_is_exception : ExtExn → bool) : M unit :=
  λ w, match download_fast_brain_model w with
       | (Ok path, w') => log INFO "Model ready at: %s" [APath path] w'
       | (Err e, w') =>
           if is_Exception ext_is_exception e then
             bind (log ERROR "Failed to download model" [])
                  (λ _, sys_exit 1) w'
           else (Err e, w')
       end.

(** The files once the directories [qs] are made. *)
Definition make_dirs (qs : list Path) (files : gmap Path entry)
  : gmap Path entry :=
  foldl (λ m q, <[q := Dir]> m) files qs.

(** ** Observations on a session of the interactive loop *)

(** The test of the loop for [quit] and [exit]. *)
Definition is_quit (s : pystr) : bool :=
  bool_decide (str_lower s = lit "quit")
  || bool_decide (str_lower s = lit "exit").

(** The lines typed before the keyboard is interrupted or runs dry. *)
Fixpoint typed (stdin : list Keyboard) : list pystr :=
  match stdin with
  | Line l :: rest => l :: typed rest
  | _ => []
  end.

(** The elements of a list before the first one that [stop] accepts. *)
Fixpoint before {A} (stop : A → bool) (l : list A) : list A :=
  match l with
  | x :: l' => if stop x then [] else x :: before stop l'
  | [] => []
  end.

(** The questions of a session: the stripped lines before the first
    [quit] or [exit], without the blank ones. *)
Definition questions (stdin : list Keyboard) : list pystr :=
  filter (λ s, s ≠ []) (before is_quit (strip <$> typed stdin)).

End Scripts.

(** ** scripts/check_hardware.py *)

Module CheckHardware.

Inductive error := IndexError | ValueError | OSError.

Inductive outcome (A : Type) : Type :=
  | Return (a : A)
  | Raise (e : error).
Arguments Return {A} a.
Arguments Raise {A} e.

(** The line boundaries of [str.splitlines()]. *)
Definition is_linebreak (c : N) : bool :=
  ((10 <=? c) && (c <=? 13) || (28 <=? c) && (c <=? 30)
   || (c =? 133) || (c =? 8232) || (c =? 8233))%N.

(** [s.splitlines()]: a carriage return and the line feed after it are
    one boundary, and a boundary at the end opens no further line. *)
Fixpoint splitlines (s : pystr) : list pystr :=
  match s with
  | [] => []
  | c :: s' =>
      if is_linebreak c then
        match s' with
        | c' :: s'' =>
            if ((c =? 13) && (c' =? 10))%N then [] :: splitlines s''
            else [] :: splitlines s'
        | [] => [[]]
        end
      else match splitlines s' with
           | l :: ls => (c :: l) :: ls
           | [] => [[c]]
           end
  end.

(** [s.split()]: the fields between the runs of whitespace. *)
Fixpoint split_ws (s : pystr) : list pystr :=
  match s with
  | [] => []
  | c :: s' =>
      if isspace c then split_ws s'
      else match s' with
           | c' :: _ =>
               if isspace c' then [c] :: split_ws s'
               else match split_ws s' with
                    | t :: ts => (c :: t) :: ts
                    | [] => [[c]]
                    end
           | [] => [[c]]
           end
  end.

(** [s.startswith(prefix)] *)
Fixpoint starts_with (prefix s : pystr) : bool :=
  match prefix, s with
  | [], _ => true
  | p :: prefix', c :: s' => (p =? c)%N && starts_with prefix' s'
  | _ :: _, [] => false
  end.

Definition is_digit (c : N) : bool := ((48 <=? c) && (c <=? 57))%N.

(** The value of a string of the digits [0-9]. *)
Definition decimal (s : pystr) : Z :=
  foldl (λ acc c, acc * 10 + Z.of_N (c - 48)) 0 s.

(** [int(s)]: a string of at most 4300 digits [0-9] has its decimal
    value; signs, underscores, other digits and longer strings are left to
    [int_other], where [None] is a [ValueError]. *)
Definition int_of_str (int_other : pystr → option Z) (s : pystr) : option Z :=
  if negb (bool_decide (s = [])) && forallb is_digit s
     && (length s <=? 4300)%nat
  then Some (decimal s) else int_other s.

(** The loop of [_read_meminfo_field] over the lines of the file. *)
Fixpoint read_field
    (int_other : pystr → option Z) (lines : list pystr) (field : pystr)
  : outcome Z :=
  match lines with
  | [] => Return 0
  | line :: rest =>
      if starts_with field line then
        match split_ws line with
        | _ :: value :: _ =>
            match int_of_str int_other value with
            | Some n => Return (n * 1024)
            | None => Raise ValueError
            end
        | _ => Raise IndexError
        end
      else read_field int_other rest field
  end.

(** [_read_meminfo_field(field)], from the text of [/proc/meminfo]. *)
Definition _read_meminfo_field
    (int_other : pystr → option Z) (meminfo : pystr) (field : pystr)
  : outcome Z :=
  read_field int_other (splitlines meminfo) field.

Inductive level := INFO | WARNING.

(** What the script does to the outside: a log record, or a process that
    it runs. *)
Inductive event :=
  | Log (lvl : level) (fmt : string) (args : list pystr)
  | Run (argv : list pystr).

(** The [CompletedProcess] of [subprocess.run]. *)
Record CompletedProcess := mkCompleted {
  returncode : Z;
  stdout : pystr;
  stderr : pystr }.

Definition comma : N := 44.

(** The [for] loop of [check_nvidia_driver] over the lines of the
    output. *)
Fixpoint report (lines : list pystr) : outcome unit * list event :=
  match lines with
  | [] => (Return (), [])
  | line :: rest =>
      match strip <$> split_on comma line with
      | [driver; persistence] =>
          let '(r, evs) := report rest in
          (r, Log INFO "Driver version : %s" [driver]
              :: Log INFO "Persistence    : %s" [persistence] :: evs)
      | _ => (Raise ValueError, [])
      end
  end.

(** [check_nvidia_driver()]: [which] is [shutil.which] and [run] is
    [subprocess.run] with the output captured as text. *)
Definition check_nvidia_driver
    (which : pystr → option pystr)
    (run : list pystr → outcome CompletedProcess)
  : outcome unit * list event :=
  let header := Log INFO "--- NVIDIA Driver ---" [] in
  match which (lit "nvidia-smi") with
  | None => (Return (), [header; Log WARNING "nvidia-smi not found on PATH." []])
  | Some nvidia_smi =>
      let argv :=
        [ nvidia_smi; lit "--query-gpu=driver_version,persistence_mode";
          lit "--format=csv,noheader" ] in
      match run argv with
      | Raise e => (Raise e, [header; Run argv])
      | Return result =>
          if returncode result =? 0 then
            let '(r, evs) := report (splitlines (strip (stdout result))) in
            (r, header :: Run argv :: evs)
          else
            (Return (),
             [ header; Run argv;
               Log WARNING "nvidia-smi failed: %s" [strip (stderr result)] ])
      end
  end.

(** The two records that a card with these two fields is logged as. *)
Definition card_records (card : pystr * pystr) : list event :=
  [ Log INFO "Driver version : %s" [strip card.1];
    Log INFO "Persistence    : %s" [strip card.2] ].

(** The text of a file whose lines all end in a line feed. *)
Definition unlines (lines : list pystr) : pystr :=
  concat ((λ l, l ++ [10%N]) <$> lines).

End CheckHardware.

(** ** More machines to run the model on *)

Module Bench.

(** An engine that loads the model and answers without any choice. *)
Definition silent : Environment := {|
  ExtState := nat;
  ExtExn := string;
  Handle := nat;
  Llama := λ _ x, (Ok 7%nat, S x);
  create_chat_completion := λ _ _ x, (Ok (mkCompletion [] (mkUsage 0)), S x);
  hf_hub_download := λ _ _ _ x files, (Err (Raised "offline"), S x, files);
  monotonic := λ n, inject_Z (Z.of_nat n);
  unicode_lower := λ s, s;
  fast_brain_file :=
    Path_of_str (lit "/opt/aegis/src/core/brains/fast_brain.py");
  download_models_file :=
    Path_of_str (lit "/opt/aegis/scripts/download_models.py") |}.

(** A machine where [fast_brain] under [models] is a regular file. *)
Definition blocked (Env : Environment) (x : ExtState) : World :=
  mkWorld {[ parent Demo.model_file := File ]} ∅ x 0 [].

(** The text of a [/proc/meminfo]. *)
Definition meminfo : pystr :=
  CheckHardware.unlines
    [ lit "MemTotal:       16384 kB";
      lit "MemFree:         1024 kB";
      lit "MemAvailable:    2048 kB";
      lit "SwapTotal:" ].

(** An [nvidia-smi] that is installed and reports two cards. *)
Definition which_smi (name : pystr) : option pystr :=
  Some (lit "/usr/bin/" ++ name).

Definition two_cards (argv : list pystr)
  : CheckHardware.outcome CheckHardware.CompletedProcess :=
  CheckHardware.Return
    (CheckHardware.mkCompleted 0
       (lit "535.129.03, Enabled" ++ [10%N] ++ lit "535.129.03 , Disabled"
        ++ [10%N])
       []).

(** An [nvidia-smi] that reports a card and then a message. *)
Definition garbled (argv : list pystr)
  : CheckHardware.outcome CheckHardware.CompletedProcess :=
  CheckHardware.Return
    (CheckHardware.mkCompleted 0
       (lit "535.129.03, Enabled" ++ [10%N] ++ lit "No devices were found"
        ++ [10%N] ++ lit "535.129.03, Disabled" ++ [10%N])
       []).

(** An [nvidia-smi] that cannot talk to the driver. *)
Definition failing (argv : list pystr)
  : CheckHardware.outcome CheckHardware.CompletedProcess :=
  CheckHardware.Return
    (CheckHardware.mkCompleted 9 (lit "x,y,z")
       (lit "NVIDIA-SMI has failed" ++ [10%N])).

End Bench.

(** * The model at work *)

Example strip_both_ends : strip (lit "  QuIt ") = lit "QuIt".
Proof. vm_compute. reflexivity. Qed.

(** A no-break space and an ideographic space are whitespace too. *)
Example strip_unicode : strip [160; 104; 105; 12288]%N = lit "hi".
Proof. vm_compute. reflexivity. Qed.

Example strip_blank : strip (lit "   ") = [].
Proof. vm_compute. reflexivity. Qed.

Example path_str_model_file :
  path_str Demo.model_file =
    lit "/opt/aegis/models/fast_brain/Meta-Llama-3.1-8B-Instruct-Q4_K_M.gguf".
Proof. vm_compute. reflexivity. Qed.

Example path_of_str_normalises :
  Path_of_str (lit "models//fast_brain/./x.gguf") =
    mkPath false [lit "models"; lit "fast_brain"; lit "x.gguf"].
Proof. vm_compute. reflexivity. Qed.

Example parent_of_name : path_str (parent (Path_of_str (lit "a"))) = lit ".".
Proof. vm_compute. reflexivity. Qed.

Example default_path_on_demo :
  DEFAULT_MODEL_PATH (Env := Demo.four) = Demo.model_file.
Proof. vm_compute. reflexivity. Qed.

(** A smoke test against an engine that answers with spaces fails. *)
Example smoke_blank_answer :
  (main (Env := Demo.env (lit "  ") 1) true []
     (Demo.installed (Demo.env (lit "  ") 1) 0%nat)).1
  = Err (SystemExit 1).
Proof. vm_compute. reflexivity. Qed.

(** Without the model the harness dies of the exception, with status 1. *)
Example smoke_without_model :
  exit_status (main (Env := Demo.four) true [] (Demo.bare Demo.four 0%nat)).1
  = 1.
Proof. vm_compute. reflexivity. Qed.

(** A session: a blank line, a question, [QuIt], and a line never read. *)
Example interactive_session :
  (λ call, content <$> messages call.2) <$>
    chat_calls
      (trace (main (Env := Demo.four) false
                [ Line (lit "  "); Line (lit " hi "); Line (lit " QuIt ");
                  Line (lit "more") ]
                (Demo.installed Demo.four 0%nat)).2)
  = [[AEGIS_SYSTEM_PROMPT; lit "hi"]].
Proof. vm_compute. reflexivity. Qed.

(** On a bare machine the helper creates the directories and downloads. *)
Example download_on_bare_machine :
  let run := download_fast_brain_model (Env := Demo.four)
               (Demo.bare Demo.four 0%nat) in
  run.1 = Ok Demo.model_file
  ∧ download_calls (trace run.2)
    = [(REPO_ID, FILENAME, MODEL_DIR (Env := Demo.four))]
  ∧ fs run.2 !! Demo.model_file = Some File
  ∧ fs run.2 !! parent Demo.model_file = Some Dir.
Proof. vm_compute. done. Qed.

(** * Properties *)

Section Properties.
Context `{Env : Environment}.

(** ** Throughput *)

Lemma Qle_bool_false_lt (e : Q) : Qle_bool e 0 = false → (0 < e)%Q.
Proof.
  intros H. destruct (Qlt_le_dec 0 e) as [Hlt | Hle]; [done |].
  apply Qle_bool_iff in Hle. congruence.
Qed.

Lemma Qeq_bool_true_le (e : Q) : Qeq_bool e 0 = true → Qle_bool e 0 = true.
Proof.
  intros H. apply Qeq_bool_iff in H. apply Qle_bool_iff.
  rewrite H. apply Qle_refl.
Qed.

(** The guard of [tokens_per_sec] keeps the division away from zero. *)
Lemma tokens_per_sec_run (n : Z) (e : Q) (w : World) :
  tokens_per_sec n e w =
    (Ok (if Qle_bool e 0 then 0%Q else (inject_Z n / e)%Q), w).
Proof.
  unfold tokens_per_sec, truediv.
  destruct (Qle_bool e 0) eqn:Hle; cbn; [done |].
  destruct (Qeq_bool e 0) eqn:Heq; [| done].
  apply Qeq_bool_true_le in Heq. congruence.
Qed.

(** ** One call of [generate_response] *)

Ltac proj := cbn [fs heap ext ticks trace choices usage fst snd].

Ltac unfold_gen :=
  unfold generate_response, call_create_chat_completion, log, print,
    time_monotonic, get_llm, index0, bind, emit, ret, raise;
  cbn [fs heap ext ticks trace choices usage].

(** The outcome when the engine answers with at least one choice. *)
Lemma generate_response_ok
    (self : nat) (user_input : pystr) (sp : option pystr)
    (temp tp : option Q) (mt : option Z) (w : World)
    (h : Handle) (c : Choice) (cs : list Choice) (u : Usage) (x : ExtState) :
  heap w !! self ≫= llm = Some h →
  create_chat_completion h (request_of user_input sp temp tp mt) (ext w)
    = (Ok (mkCompletion (c :: cs) u), x) →
  let elapsed := (monotonic (S (ticks w)) - monotonic (ticks w))%Q in
  generate_response self user_input sp temp tp mt w =
    (Ok (content (message c)),
     mkWorld (fs w) (heap w) x (S (S (ticks w)))
       (trace w ++
        [ EvLog DEBUG "Generating response for: %.80s..." [AStr user_input];
          EvChat h (request_of user_input sp temp tp mt);
          EvLog INFO "Generated %d tokens in %.2fs (%.1f t/s)"
            [ AInt (completion_tokens u); ANum elapsed;
              ANum (if Qle_bool elapsed 0 then 0%Q
                    else (inject_Z (completion_tokens u) / elapsed)%Q) ] ])).
Proof.
  intros Hllm Hchat elapsed. unfold_gen. rewrite Hllm. proj.
  unfold request_of in Hchat. rewrite Hchat. cbn [fs heap ext ticks trace choices usage].
  rewrite tokens_per_sec_run. cbn [fs heap ext ticks trace].
  by rewrite <- !app_assoc.
Qed.

(** The outcome when the engine raises. *)
Lemma generate_response_err
    (self : nat) (user_input : pystr) (sp : option pystr)
    (temp tp : option Q) (mt : option Z) (w : World)
    (h : Handle) (e : exn ExtExn) (x : ExtState) :
  heap w !! self ≫= llm = Some h →
  create_chat_completion h (request_of user_input sp temp tp mt) (ext w)
    = (Err e, x) →
  generate_response self user_input sp temp tp mt w =
    (Err e,
     mkWorld (fs w) (heap w) x (S (ticks w))
       (trace w ++
        [ EvLog DEBUG "Generating response for: %.80s..." [AStr user_input];
          EvChat h (request_of user_input sp temp tp mt) ])).
Proof.
  intros Hllm Hchat. unfold_gen. rewrite Hllm. proj.
  unfold request_of in Hchat. rewrite Hchat. cbn [fs heap ext ticks trace].
  by rewrite <- !app_assoc.
Qed.

(** The outcome when the engine answers without any choice. *)
Lemma generate_response_no_choice
    (self : nat) (user_input : pystr) (sp : option pystr)
    (temp tp : option Q) (mt : option Z) (w : World)
    (h : Handle) (u : Usage) (x : ExtState) :
  heap w !! self ≫= llm = Some h →
  create_chat_completion h (request_of user_input sp temp tp mt) (ext w)
    = (Ok (mkCompletion [] u), x) →
  generate_response self user_input sp temp tp mt w =
    (Err IndexError,
     mkWorld (fs w) (heap w) x (S (S (ticks w)))
       (trace w ++
        [ EvLog DEBUG "Generating response for: %.80s..." [AStr user_input];
          EvChat h (request_of user_input sp temp tp mt) ])).
Proof.
  intros Hllm Hchat. unfold_gen. rewrite Hllm. proj.
  unfold request_of in Hchat. rewrite Hchat. proj.
  by rewrite <- !app_assoc.
Qed.

(** The outcome on an object that holds no engine. *)
Lemma generate_response_no_llm
    (self : nat) (user_input : pystr) (sp : option pystr)
    (temp tp : option Q) (mt : option Z) (w : World) :
  heap w !! self ≫= llm = None →
  generate_response self user_input sp temp tp mt w =
    (Err (AttributeError "llm"),
     mkWorld (fs w) (heap w) (ext w) (S (ticks w))
       (trace w ++
        [ EvLog DEBUG "Generating response for: %.80s..."
            [AStr user_input] ])).
Proof. intros Hllm. unfold_gen. by rewrite Hllm. Qed.

(** Whatever happens, a call leaves the heap and the files alone and asks
    the engine at most once, for the request built from its own
    arguments. *)
Lemma generate_response_frame
    (self : nat) (user_input : pystr) (sp : option pystr)
    (temp tp : option Q) (mt : option Z) (w : World) :
  let w' := (generate_response self user_input sp temp tp mt w).2 in
  heap w' = heap w ∧ fs w' = fs w ∧
  ∃ evs, trace w' = trace w ++ evs ∧ load_calls evs = [] ∧
    chat_calls evs =
      match heap w !! self ≫= llm with
      | Some h => [(h, request_of user_input sp temp tp mt)]
      | None => []
      end.
Proof.
  intros w'. subst w'.
  destruct (heap w !! self ≫= llm) as [h |] eqn:Hllm.
  - destruct (create_chat_completion h (request_of user_input sp temp tp mt)
                (ext w)) as [[[[| c cs] u] | e] x] eqn:Hchat.
    + rewrite (generate_response_no_choice _ _ _ _ _ _ _ _ _ _ Hllm Hchat).
      repeat split; eauto.
    + rewrite (generate_response_ok _ _ _ _ _ _ _ _ _ _ _ _ Hllm Hchat).
      repeat split; eauto.
    + rewrite (generate_response_err _ _ _ _ _ _ _ _ _ _ Hllm Hchat).
      repeat split; eauto.
  - rewrite (generate_response_no_llm _ _ _ _ _ _ _ Hllm).
    repeat split; eauto.
Qed.

(** ** Construction *)

Ltac unfold_init :=
  unfold FastBrain, FastBrain__init__, call_Llama, new_object,
    set_model_path, set_llm, get_model_path, path_exists, log,
    time_monotonic, bind, emit, ret, raise;
  proj.

(** The attributes of the object under construction once [__init__] has
    stored the resolved path. *)
Lemma lookup_model_path_fresh
    (m : gmap nat FastBrainObj) (l : nat) (p : Path) :
  alter (λ o, mkFastBrainObj (Some p) (llm o)) l
    (<[l := mkFastBrainObj None None]> m) !! l ≫= model_path = Some p.
Proof. by rewrite lookup_alter_eq, lookup_insert_eq. Qed.

Lemma lookup_constructed
    (m : gmap nat FastBrainObj) (l : nat) (p : Path) (h : Handle) :
  constructed m l p h !! l = Some (mkFastBrainObj (Some p) (Some h)).
Proof.
  unfold constructed. by rewrite !lookup_alter_eq, lookup_insert_eq.
Qed.

Ltac init_steps :=
  repeat first [ rewrite lookup_model_path_fresh
               | progress proj
               | progress cbn [negb] ].

(** Construction when the resolved path is missing. *)
Lemma FastBrain_missing
    (mp : option Path) (ngl nctx : option Z) (w : World) :
  fs w !! model_path_or_default mp = None →
  FastBrain mp ngl nctx w =
    (Err (FileNotFoundError
            (lit "Model not found at "
             ++ path_str (model_path_or_default mp)
             ++ lit ". Run 'python scripts/download_models.py' first.")),
     mkWorld (fs w)
       (alter (λ o, mkFastBrainObj (Some (model_path_or_default mp)) (llm o))
          (fresh (dom (heap w)))
          (<[fresh (dom (heap w)) := mkFastBrainObj None None]> (heap w)))
       (ext w) (ticks w) (trace w)).
Proof.
  intros Hfs. unfold_init. rewrite lookup_model_path_fresh. proj.
  rewrite Hfs. rewrite bool_decide_eq_false_2 by (by intros [? ?]).
  init_steps. reflexivity.
Qed.

(** Construction when the file exists and the engine loads it. *)
Lemma FastBrain_loaded
    (mp : option Path) (ngl nctx : option Z) (w : World)
    (h : Handle) (x : ExtState) :
  let p := model_path_or_default mp in
  let args := mkLoadArgs (path_str p) (default default_n_gpu_layers ngl)
                (default default_n_ctx nctx) false in
  is_Some (fs w !! p) →
  Llama args (ext w) = (Ok h, x) →
  FastBrain mp ngl nctx w =
    (Ok (fresh (dom (heap w))),
     mkWorld (fs w) (constructed (heap w) (fresh (dom (heap w))) p h) x
       (S (S (ticks w)))
       (trace w ++
        [ EvLog INFO "Loading Fast Brain model: %s" [APath p];
          EvLoad args;
          EvLog INFO "Fast Brain loaded in %.2f seconds."
            [ANum (monotonic (S (ticks w)) - monotonic (ticks w))%Q] ])).
Proof.
  intros p args Hfs Hload. subst p args. unfold_init.
  rewrite !lookup_model_path_fresh. proj.
  rewrite bool_decide_eq_true_2 by done. init_steps.
  rewrite Hload. proj. by rewrite <- !app_assoc.
Qed.

(** Construction when the file exists and the engine fails to load it. *)
Lemma FastBrain_load_failed
    (mp : option Path) (ngl nctx : option Z) (w : World)
    (e : exn ExtExn) (x : ExtState) :
  let p := model_path_or_default mp in
  let args := mkLoadArgs (path_str p) (default default_n_gpu_layers ngl)
                (default default_n_ctx nctx) false in
  is_Some (fs w !! p) →
  Llama args (ext w) = (Err e, x) →
  FastBrain mp ngl nctx w =
    (Err e,
     mkWorld (fs w)
       (alter (λ o, mkFastBrainObj (Some p) (llm o)) (fresh (dom (heap w)))
          (<[fresh (dom (heap w)) := mkFastBrainObj None None]> (heap w)))
       x (S (ticks w))
       (trace w ++
        [ EvLog INFO "Loading Fast Brain model: %s" [APath p];
          EvLoad args ])).
Proof.
  intros p args Hfs Hload. subst p args. unfold_init.
  rewrite !lookup_model_path_fresh. proj.
  rewrite bool_decide_eq_true_2 by done. init_steps.
  rewrite Hload. proj. by rewrite <- !app_assoc.
Qed.

(** What a construction does, whatever the engine answers: it stores the
    resolved path in the new object, keeps the files, and asks the engine
    for one load when the file exists and for none when it does not. *)
Lemma FastBrain_frame (mp : option Path) (ngl nctx : option Z) (w : World) :
  let p := model_path_or_default mp in
  let w' := (FastBrain mp ngl nctx w).2 in
  fs w' = fs w ∧
  heap w' !! fresh (dom (heap w)) ≫= model_path = Some p ∧
  ∃ evs, trace w' = trace w ++ evs ∧ chat_calls evs = [] ∧
    load_calls evs =
      if bool_decide (is_Some (fs w !! p))
      then [mkLoadArgs (path_str p) (default default_n_gpu_layers ngl)
              (default default_n_ctx nctx) false]
      else [].
Proof.
  intros p w'. subst w'.
  destruct (fs w !! p) as [k |] eqn:Hfs.
  - assert (is_Some (fs w !! p)) as Hex by (by rewrite Hfs).
    rewrite bool_decide_eq_true_2 by done.
    destruct (Llama (mkLoadArgs (path_str p) (default default_n_gpu_layers ngl)
                       (default default_n_ctx nctx) false) (ext w))
      as [[h | e] x] eqn:Hload.
    + rewrite (FastBrain_loaded mp ngl nctx w h x Hex Hload). proj.
      rewrite lookup_constructed. repeat split; eauto.
    + rewrite (FastBrain_load_failed mp ngl nctx w e x Hex Hload). proj.
      rewrite lookup_model_path_fresh. repeat split; eauto.
  - rewrite bool_decide_eq_false_2 by (by intros [? ?]).
    rewrite (FastBrain_missing mp ngl nctx w Hfs). proj.
    rewrite lookup_model_path_fresh. repeat split; [].
    exists []. by rewrite app_nil_r.
Qed.

(** ** Paths *)

Lemma parent_div (root : Path) (name : pystr) :
  Path_of_str name = mkPath false [name] →
  parent (root /: name) = root.
Proof.
  intros Hname. unfold path_div, parent. rewrite Hname. cbn.
  rewrite removelast_last. by destruct root.
Qed.

(** The project root seen from [fast_brain.py]. *)
Lemma project_root_of_fast_brain (root : Path) :
  fast_brain_file =
    root /: lit "src" /: lit "core" /: lit "brains" /: lit "fast_brain.py" →
  _PROJECT_ROOT = root.
Proof.
  intros Hfile. unfold _PROJECT_ROOT. rewrite Hfile.
  by rewrite !parent_div.
Qed.

(** The project root seen from [download_models.py]. *)
Lemma project_root_of_download_models (root : Path) :
  download_models_file = root /: lit "scripts" /: lit "download_models.py" →
  PROJECT_ROOT = root.
Proof.
  intros Hfile. unfold PROJECT_ROOT. rewrite Hfile.
  by rewrite !parent_div.
Qed.

(** The download helper writes the file where the wrapper looks for it. *)
Lemma download_target_is_default (root : Path) :
  fast_brain_file =
    root /: lit "src" /: lit "core" /: lit "brains" /: lit "fast_brain.py" →
  download_models_file = root /: lit "scripts" /: lit "download_models.py" →
  MODEL_DIR /: FILENAME = DEFAULT_MODEL_PATH.
Proof.
  intros H1 H2. unfold MODEL_DIR, DEFAULT_MODEL_PATH.
  by rewrite (project_root_of_fast_brain root H1),
             (project_root_of_download_models root H2).
Qed.

(** ** The download helper *)

(** With the file in place the helper only logs and returns its path. *)
Lemma download_present (w : World) :
  is_Some (fs w !! (MODEL_DIR /: FILENAME)) →
  download_fast_brain_model w =
    (Ok (MODEL_DIR /: FILENAME),
     mkWorld (fs w) (heap w) (ext w) (ticks w)
       (trace w ++
        [ EvLog INFO "Model already exists: %s"
            [APath (MODEL_DIR /: FILENAME)] ])).
Proof.
  intros Hex.
  unfold download_fast_brain_model, path_exists, log, bind, emit, ret.
  by rewrite bool_decide_eq_true_2 by done.
Qed.

(** ** The smoke test *)

(** [response and len(response.strip()) > 0] holds exactly when something
    is left of the response after stripping. *)
Lemma smoke_condition (response : pystr) :
  negb (bool_decide (response = []))
    && (0 <? Z.of_nat (length (strip response)))
  = negb (bool_decide (strip response = [])).
Proof.
  destruct response as [| c r]; [done |].
  rewrite bool_decide_eq_false_2 by done. cbn [negb andb].
  destruct (strip (c :: r)) as [| c' r'] eqn:Hs; [done |].
  rewrite bool_decide_eq_false_2 by done. cbn [negb length].
  apply Z.ltb_lt. lia.
Qed.

(** The verdict of the smoke test when the engine answers. *)
Lemma run_smoke_test_verdict
    (brain : nat) (w : World) (h : Handle) (c : Choice) (cs : list Choice)
    (u : Usage) (x : ExtState) :
  heap w !! brain ≫= llm = Some h →
  create_chat_completion h (request_of test_prompt None None None None) (ext w)
    = (Ok (mkCompletion (c :: cs) u), x) →
  (run_smoke_test brain w).1
    = Ok (negb (bool_decide (strip (content (message c)) = []))).
Proof.
  intros Hllm Hchat.
  unfold run_smoke_test, log, time_monotonic, bind, emit, ret. proj.
  erewrite generate_response_ok; [| exact Hllm | exact Hchat]. proj.
  rewrite smoke_condition.
  by destruct (bool_decide (strip (content (message c)) = [])).
Qed.

(** The exit of [main] in smoke mode when the model is installed, the
    engine loads it and answers the test prompt. *)
Lemma main_smoke_exit
    (stdin : list Keyboard) (w : World) (h : Handle) (x1 x2 : ExtState)
    (c : Choice) (cs : list Choice) (u : Usage) :
  is_Some (fs w !! DEFAULT_MODEL_PATH) →
  Llama (mkLoadArgs (path_str DEFAULT_MODEL_PATH) default_n_gpu_layers
           default_n_ctx false) (ext w) = (Ok h, x1) →
  create_chat_completion h (request_of test_prompt None None None None) x1
    = (Ok (mkCompletion (c :: cs) u), x2) →
  (main true stdin w).1 =
    Err (SystemExit
           (if bool_decide (strip (content (message c)) = []) then 1 else 0)).
Proof.
  intros Hfs Hload Hchat.
  unfold main, log, bind, emit, sys_exit, raise. proj.
  erewrite FastBrain_loaded; [| exact Hfs | exact Hload]. proj.
  match goal with
  | |- context [run_smoke_test ?b ?W] =>
      pose proof (run_smoke_test_verdict b W h c cs u x2) as Hv;
      destruct (run_smoke_test b W) as [r w'] eqn:Hrun
  end.
  proj. cbn [fs heap ext ticks trace] in Hv.
  rewrite lookup_constructed in Hv.
  specialize (Hv eq_refl Hchat). cbn [fst] in Hv. rewrite Hv.
  by destruct (bool_decide (strip (content (message c)) = [])).
Qed.

(** ** The interactive loop *)

Lemma ascii_lower_is_ascii (a b : N) :
  ascii_lower a = b → is_ascii b = true → is_ascii a = true.
Proof.
  unfold ascii_lower, is_ascii. intros <-.
  destruct ((65 <=? a) && (a <=? 90))%N eqn:Hup; [| done].
  apply andb_true_iff in Hup as [_ Hle]. apply N.leb_le in Hle.
  intros _. apply N.ltb_lt. lia.
Qed.

(** A string that equals a lower-case ASCII word up to case is lowered to
    that word. *)
Lemma caseless_lower (s t : pystr) :
  caseless_eq s t →
  forallb is_ascii t = true → ascii_lower <$> t = t →
  str_lower s = t.
Proof.
  intros Hst Ht Hlow.
  assert (forallb is_ascii s = true ∧ ascii_lower <$> s = t) as [Hs Hmap].
  { induction Hst as [| a b s t Hab Hst IH]; [done |].
    cbn in Ht, Hlow. apply andb_true_iff in Ht as [Hb Ht].
    injection Hlow as Hb' Hlow'. rewrite Hb' in Hab.
    destruct (IH Ht Hlow') as [IH1 IH2]. split.
    - cbn. rewrite IH1, (ascii_lower_is_ascii a b Hab Hb). done.
    - cbn. by rewrite Hab, IH2. }
  unfold str_lower. by rewrite Hs.
Qed.

Lemma caseless_nonempty (s : pystr) (c : N) (t : pystr) :
  caseless_eq s (c :: t) → s ≠ [].
Proof. intros H ->. inversion H. Qed.

(** An iteration whose stripped line is empty goes on to the next line
    without a call. *)
Lemma interactive_loop_blank
    (brain : nat) (l : pystr) (rest : list Keyboard) (w : World) :
  strip l = [] →
  interactive_loop brain (Line l :: rest) w =
    interactive_loop brain rest
      (mkWorld (fs w) (heap w) (ext w) (ticks w)
         (trace w ++ [EvInput (10%N :: lit "You: ")])).
Proof.
  intros Hblank. cbn [interactive_loop]. unfold bind at 1. unfold emit at 1.
  rewrite Hblank. by rewrite bool_decide_eq_true_2.
Qed.

(** An iteration whose stripped line is [quit] or [exit] in any case ends
    the loop without a call. *)
Lemma interactive_loop_quit
    (brain : nat) (l : pystr) (rest : list Keyboard) (w : World) :
  caseless_eq (strip l) (lit "quit") ∨ caseless_eq (strip l) (lit "exit") →
  interactive_loop brain (Line l :: rest) w =
    (Ok (),
     mkWorld (fs w) (heap w) (ext w) (ticks w)
       (trace w ++
        [ EvInput (10%N :: lit "You: "); EvLog INFO "Goodbye." [] ])).
Proof.
  intros Hq. cbn [interactive_loop]. unfold bind at 1. unfold emit at 1.
  assert (strip l ≠ []) as Hne
    by (destruct Hq as [Hq | Hq]; exact (caseless_nonempty _ _ _ Hq)).
  rewrite bool_decide_eq_false_2 by done.
  assert (bool_decide (str_lower (strip l) = lit "quit")
          || bool_decide (str_lower (strip l) = lit "exit") = true) as ->.
  { destruct Hq as [Hq | Hq];
      rewrite (caseless_lower _ _ Hq eq_refl eq_refl); done. }
  unfold log, emit. proj. by rewrite <- !app_assoc.
Qed.

(** An iteration with any other line asks the brain about the stripped
    line, prints the answer and goes on; a failure of the brain ends the
    loop. *)
Lemma interactive_loop_ask
    (brain : nat) (l : pystr) (rest : list Keyboard) (w : World) :
  strip l ≠ [] →
  bool_decide (str_lower (strip l) = lit "quit")
    || bool_decide (str_lower (strip l) = lit "exit") = false →
  interactive_loop brain (Line l :: rest) w =
    match generate_response brain (strip l) None None None None
            (mkWorld (fs w) (heap w) (ext w) (S (ticks w))
               (trace w ++ [EvInput (10%N :: lit "You: ")])) with
    | (Ok response, w3) =>
        interactive_loop brain rest
          (mkWorld (fs w3) (heap w3) (ext w3) (S (ticks w3))
             (trace w3 ++
              [ EvPrint (10%N :: lit "A.E.G.I.S: " ++ response);
                EvLog INFO "(Response time: %.2fs)"
                  [ANum (monotonic (ticks w3) - monotonic (ticks w))%Q] ]))
    | (Err e, w3) => (Err e, w3)
    end.
Proof.
  intros Hne Hq. cbn [interactive_loop].
  unfold print, log, bind, emit, time_monotonic. proj.
  rewrite bool_decide_eq_false_2 by done. rewrite Hq.
  destruct (generate_response _ _ _ _ _ _ _) as [[response | e] w3];
    [| done].
  proj. by rewrite <- !app_assoc.
Qed.

Lemma from_typed_line_later
    (k : Keyboard) (rest : list Keyboard) (calls : list (Handle * ChatRequest)) :
  Forall (from_typed_line rest) calls →
  Forall (from_typed_line (k :: rest)) calls.
Proof.
  intros Hall. eapply Forall_impl; [exact Hall |].
  intros call (l & Hin & Hrest).
  exists l. split; [by apply list_elem_of_further | done].
Qed.

Lemma chat_calls_app (evs1 evs2 : list Event) :
  chat_calls (evs1 ++ evs2) = chat_calls evs1 ++ chat_calls evs2.
Proof. apply omap_app. Qed.

Ltac leave_loop :=
  cbn [interactive_loop]; unfold log, bind, emit; proj;
  eexists; split; [by rewrite <- !app_assoc | constructor].

(** Every call that the loop makes comes from a typed line. *)
Lemma interactive_loop_calls (brain : nat) (stdin : list Keyboard) :
  ∀ w, ∃ evs,
    trace (interactive_loop brain stdin w).2 = trace w ++ evs
    ∧ Forall (from_typed_line stdin) (chat_calls evs).
Proof.
  induction stdin as [| k rest IH]; intros w; [leave_loop |].
  destruct k as [l | |]; [| leave_loop | leave_loop].
  destruct (decide (strip l = [])) as [Hblank | Hne].
  { rewrite (interactive_loop_blank _ _ _ _ Hblank).
    destruct (IH (mkWorld (fs w) (heap w) (ext w) (ticks w)
                    (trace w ++ [EvInput (10%N :: lit "You: ")])))
      as (evs & Htr & Hall).
    exists (EvInput (10%N :: lit "You: ") :: evs). split.
    - rewrite Htr. proj. by rewrite <- app_assoc.
    - by apply from_typed_line_later. }
  destruct (bool_decide (str_lower (strip l) = lit "quit")
            || bool_decide (str_lower (strip l) = lit "exit")) eqn:Hq.
  { cbn [interactive_loop]. unfold log, bind, emit. proj.
    rewrite bool_decide_eq_false_2 by done. rewrite Hq. proj.
    eexists. split; [by rewrite <- !app_assoc | constructor]. }
  rewrite (interactive_loop_ask _ _ _ _ Hne Hq).
  pose proof (generate_response_frame brain (strip l) None None None None
                (mkWorld (fs w) (heap w) (ext w) (S (ticks w))
                   (trace w ++ [EvInput (10%N :: lit "You: ")]))) as Hf.
  destruct (generate_response _ _ _ _ _ _ _) as [r w3].
  cbn [fst snd] in Hf. destruct Hf as (_ & _ & evg & Htr & _ & Hcalls).
  revert Htr. proj. intros Htr.
  assert (Forall (from_typed_line (Line l :: rest)) (chat_calls evg)) as Hg.
  { rewrite Hcalls. destruct (_ ≫= llm) as [h |]; constructor; [| done].
    apply orb_false_iff in Hq as [Hquit Hexit'].
    apply bool_decide_eq_false in Hquit, Hexit'.
    exists l. split; [apply list_elem_of_here |].
    repeat split; [done | |].
    - intros Hc. by apply Hquit, caseless_lower.
    - intros Hc. by apply Hexit', caseless_lower. }
  destruct r as [response | e].
  - match goal with
    | |- context [interactive_loop brain rest ?W] =>
        destruct (IH W) as (evs & Htr' & Hall)
    end.
    exists (EvInput (10%N :: lit "You: ") :: evg
            ++ [ EvPrint (10%N :: lit "A.E.G.I.S: " ++ response);
                 EvLog INFO "(Response time: %.2fs)"
                   [ANum (monotonic (ticks w3) - monotonic (ticks w))%Q] ]
            ++ evs).
    split.
    + rewrite Htr'. proj. rewrite Htr. by rewrite <- !app_assoc.
    + change (chat_calls (EvInput ?p :: ?t)) with (chat_calls t).
      rewrite !chat_calls_app. apply Forall_app. split; [done |].
      by apply from_typed_line_later.
  - exists (EvInput (10%N :: lit "You: ") :: evg). split.
    + proj. rewrite Htr. by rewrite <- !app_assoc.
    + done.
Qed.

(** * The claims of the specification *)

(** C1.  When the resolved model path does not exist on disk, constructing
    [FastBrain] raises [FileNotFoundError]; the message names the missing
    path and tells to run the download script; and the construction stops
    there: it records no event, so no load is attempted, and the engine
    and the files are as before. *)
Theorem FastBrain_model_not_found
    (mp : option Path) (ngl nctx : option Z) (w : World) :
  fs w !! model_path_or_default mp = None →
  ∃ w',
    FastBrain mp ngl nctx w =
      (Err (FileNotFoundError
              (lit "Model not found at "
               ++ path_str (model_path_or_default mp)
               ++ lit ". Run 'python scripts/download_models.py' first.")),
       w')
    ∧ trace w' = trace w ∧ ext w' = ext w ∧ fs w' = fs w.
Proof.
  intros Hfs. eexists. split; [by apply FastBrain_missing |]. done.
Qed.

(** C2.  For every user input, the empty one included, and every system
    prompt, temperature, top_p and max_tokens, [generate_response] on a
    loaded brain asks the engine exactly once, for the conversation made
    of the system message and then the user message with the two texts as
    given and with the sampling parameters as given, and returns the
    content of the message of the first choice of the engine's answer. *)
Theorem generate_response_delegates
    (self : nat) (user_input system_prompt : pystr)
    (temperature top_p : Q) (max_tokens : Z) (w : World)
    (h : Handle) (c : Choice) (cs : list Choice) (u : Usage) (x : ExtState) :
  let req :=
    mkChatRequest
      [ mkMessage (lit "system") system_prompt;
        mkMessage (lit "user") user_input ]
      temperature top_p max_tokens in
  heap w !! self ≫= llm = Some h →
  create_chat_completion h req (ext w) = (Ok (mkCompletion (c :: cs) u), x) →
  ∃ w',
    generate_response self user_input (Some system_prompt)
        (Some temperature) (Some top_p) (Some max_tokens) w
      = (Ok (content (message c)), w')
    ∧ ext w' = x
    ∧ ∃ evs, trace w' = trace w ++ evs ∧ chat_calls evs = [(h, req)].
Proof.
  intros req Hllm Hchat. eexists. split.
  - by apply (generate_response_ok self user_input (Some system_prompt)
                (Some temperature) (Some top_p) (Some max_tokens)
                w h c cs u x).
  - split; [done |]. eexists. split; done.
Qed.

Lemma Qle_bool_nonneg (e : Q) : (0 <= e)%Q → Qle_bool e 0 = Qeq_bool e 0.
Proof.
  intros Hpos. destruct (Qeq_bool e 0) eqn:Heq.
  - by apply Qeq_bool_true_le.
  - destruct (Qle_bool e 0) eqn:Hle; [| done].
    apply Qle_bool_iff in Hle.
    assert (Qeq_bool e 0 = true) as Heq'
      by (apply Qeq_bool_iff; by apply Qle_antisym).
    congruence.
Qed.

(** C3.  With a clock that does not go back, [generate_response] never
    divides by zero: whatever the number of completion tokens, the call
    returns, and the tokens per second that it reports are zero when the
    elapsed time is exactly zero and the number of tokens divided by the
    elapsed time otherwise. *)
Theorem generate_response_throughput
    (self : nat) (user_input : pystr) (sp : option pystr)
    (temp tp : option Q) (mt : option Z) (w : World)
    (h : Handle) (c : Choice) (cs : list Choice) (u : Usage) (x : ExtState) :
  let elapsed := (monotonic (S (ticks w)) - monotonic (ticks w))%Q in
  (monotonic (ticks w) <= monotonic (S (ticks w)))%Q →
  heap w !! self ≫= llm = Some h →
  create_chat_completion h (request_of user_input sp temp tp mt) (ext w)
    = (Ok (mkCompletion (c :: cs) u), x) →
  ∃ w',
    generate_response self user_input sp temp tp mt w
      = (Ok (content (message c)), w')
    ∧ last (trace w') =
        Some (EvLog INFO "Generated %d tokens in %.2fs (%.1f t/s)"
                [ AInt (completion_tokens u); ANum elapsed;
                  ANum (if Qeq_bool elapsed 0 then 0%Q
                        else (inject_Z (completion_tokens u) / elapsed)%Q) ]).
Proof.
  intros elapsed Hclock Hllm Hchat. eexists. split.
  - by apply (generate_response_ok self user_input sp temp tp mt w h c cs u x).
  - proj. rewrite Qle_bool_nonneg.
    + by rewrite last_app.
    + unfold Qminus. by apply Qle_minus_iff in Hclock.
Qed.

(** C5.  Two calls in a row on the same brain are independent: each
    leaves the heap, and so every field of the brain, as it was, and the
    only request that the second call sends is built from the arguments
    of the second call alone, whatever the user input of the first. *)
Theorem generate_response_stateless
    (self : nat) (w : World)
    (user_input1 : pystr) (sp1 : option pystr) (temp1 tp1 : option Q)
    (mt1 : option Z)
    (user_input2 : pystr) (sp2 : option pystr) (temp2 tp2 : option Q)
    (mt2 : option Z) :
  let w1 := (generate_response self user_input1 sp1 temp1 tp1 mt1 w).2 in
  let w2 := (generate_response self user_input2 sp2 temp2 tp2 mt2 w1).2 in
  heap w1 = heap w ∧ heap w2 = heap w ∧
  ∃ evs, trace w2 = trace w1 ++ evs ∧
    chat_calls evs =
      match heap w !! self ≫= llm with
      | Some h =>
          [ (h, mkChatRequest
                  [ mkMessage (lit "system")
                      (default default_system_prompt sp2);
                    mkMessage (lit "user") user_input2 ]
                  (default default_temperature temp2)
                  (default default_top_p tp2)
                  (default default_max_tokens mt2)) ]
      | None => []
      end.
Proof.
  intros w1 w2.
  destruct (generate_response_frame self user_input1 sp1 temp1 tp1 mt1 w)
    as (Hheap1 & _ & _).
  destruct (generate_response_frame self user_input2 sp2 temp2 tp2 mt2 w1)
    as (Hheap2 & _ & evs & Htr & _ & Hcalls).
  fold w1 in Hheap1. fold w2 in Hheap2, Htr.
  split; [done |]. split; [congruence |].
  exists evs. split; [done |]. by rewrite <- Hheap1.
Qed.

(** C6.  A failure of the engine reaches the caller as it is: when the
    load raises [e], so does the construction, and when the chat
    completion raises [e], so does [generate_response]; in both cases the
    engine was asked once and is left in the state of that one call. *)
Theorem engine_failures_propagate :
  (∀ (mp : option Path) (ngl nctx : option Z) (w : World)
     (e : exn ExtExn) (x : ExtState),
     let p := model_path_or_default mp in
     let args := mkLoadArgs (path_str p) (default default_n_gpu_layers ngl)
                   (default default_n_ctx nctx) false in
     is_Some (fs w !! p) →
     Llama args (ext w) = (Err e, x) →
     ∃ w', FastBrain mp ngl nctx w = (Err e, w') ∧ ext w' = x
           ∧ ∃ evs, trace w' = trace w ++ evs ∧ load_calls evs = [args])
  ∧
  (∀ (self : nat) (user_input : pystr) (sp : option pystr)
     (temp tp : option Q) (mt : option Z) (w : World)
     (h : Handle) (e : exn ExtExn) (x : ExtState),
     let req := request_of user_input sp temp tp mt in
     heap w !! self ≫= llm = Some h →
     create_chat_completion h req (ext w) = (Err e, x) →
     ∃ w', generate_response self user_input sp temp tp mt w = (Err e, w')
           ∧ ext w' = x
           ∧ ∃ evs, trace w' = trace w ++ evs ∧ chat_calls evs = [(h, req)]).
Proof.
  split.
  - intros mp ngl nctx w e x p args Hfs Hload. eexists. split.
    + by apply FastBrain_load_failed.
    + split; [done |]. eexists. split; done.
  - intros self user_input sp temp tp mt w h e x req Hllm Hchat.
    eexists. split.
    + by apply (generate_response_err self user_input sp temp tp mt w h e x).
    + split; [done |]. eexists. split; done.
Qed.

(** C4.  In smoke mode, on a machine where the model is installed and
    the engine loads it and answers the test prompt, the response that
    [generate_response] returns is the content of the first choice, and
    the exit status of the harness is 0 exactly when something is left of
    that response after stripping; when it is empty or all whitespace the
    exit status is 1. *)
Theorem smoke_exit_code
    (stdin : list Keyboard) (w : World) (h : Handle) (x1 x2 : ExtState)
    (c : Choice) (cs : list Choice) (u : Usage) :
  let response := content (message c) in
  is_Some (fs w !! DEFAULT_MODEL_PATH) →
  Llama (mkLoadArgs (path_str DEFAULT_MODEL_PATH) default_n_gpu_layers
           default_n_ctx false) (ext w) = (Ok h, x1) →
  create_chat_completion h (request_of test_prompt None None None None) x1
    = (Ok (mkCompletion (c :: cs) u), x2) →
  (exit_status (main true stdin w).1 = 0 ↔ strip response ≠ [])
  ∧ (strip response = [] → exit_status (main true stdin w).1 = 1).
Proof.
  intros response Hfs Hload Hchat.
  rewrite (main_smoke_exit stdin w h x1 x2 c cs u Hfs Hload Hchat).
  fold response. cbn [exit_status].
  destruct (decide (strip response = [])) as [Hs | Hs].
  - rewrite bool_decide_eq_true_2 by done. split; [| done].
    split; [lia | done].
  - rewrite bool_decide_eq_false_2 by done. split; [done |]. done.
Qed.

(** C7.  The resolved model path is the path that the caller gives, when
    there is one; without one it is
    [models/fast_brain/Meta-Llama-3.1-8B-Instruct-Q4_K_M.gguf] under the
    root of the project that holds [src/core/brains/fast_brain.py]; and
    the resolution looks at nothing and changes nothing: in every world,
    whether the file exists or not, the construction keeps the files and
    stores that same path in the new object. *)
Theorem model_path_resolution :
  (∀ p : Path, model_path_or_default (Some p) = p)
  ∧ (∀ root : Path,
       fast_brain_file =
         root /: lit "src" /: lit "core" /: lit "brains"
              /: lit "fast_brain.py" →
       model_path_or_default None =
         root /: lit "models" /: lit "fast_brain"
              /: lit "Meta-Llama-3.1-8B-Instruct-Q4_K_M.gguf")
  ∧ (∀ (mp : option Path) (ngl nctx : option Z) (w : World),
       let w' := (FastBrain mp ngl nctx w).2 in
       fs w' = fs w
       ∧ heap w' !! fresh (dom (heap w)) ≫= model_path
         = Some (model_path_or_default mp)).
Proof.
  split; [done |]. split.
  - intros root Hfile. cbn [model_path_or_default].
    unfold DEFAULT_MODEL_PATH.
    by rewrite (project_root_of_fast_brain root Hfile).
  - intros mp ngl nctx w w'.
    destruct (FastBrain_frame mp ngl nctx w) as (Hfs & Hpath & _). done.
Qed.

(** C8.  The defaults of the interface: a construction that leaves out
    the GPU layers and the context size asks the engine for -1 layers,
    that is all of them, and 4096 tokens of context; a call of
    [generate_response] that leaves out its options sends the system
    prompt of the registry, temperature 0.7, top_p 0.9 and at most 1024
    tokens. *)
Theorem interface_defaults :
  (∀ (mp : option Path) (w : World),
     FastBrain mp None None w = FastBrain mp (Some (-1)) (Some 4096) w)
  ∧ (∀ (mp : option Path) (w : World),
       is_Some (fs w !! model_path_or_default mp) →
       ∃ evs, trace (FastBrain mp None None w).2 = trace w ++ evs
              ∧ load_calls evs =
                  [ mkLoadArgs (path_str (model_path_or_default mp))
                      (-1) 4096 false ])
  ∧ (∀ (self : nat) (user_input : pystr) (w : World),
       generate_response self user_input None None None None w =
       generate_response self user_input (Some AEGIS_SYSTEM_PROMPT)
         (Some 0.7%Q) (Some 0.9%Q) (Some 1024) w)
  ∧ (∀ (self : nat) (user_input : pystr) (w : World) (h : Handle),
       heap w !! self ≫= llm = Some h →
       ∃ evs,
         trace (generate_response self user_input None None None None w).2
           = trace w ++ evs
         ∧ chat_calls evs =
             [ (h, mkChatRequest
                     [ mkMessage (lit "system") AEGIS_SYSTEM_PROMPT;
                       mkMessage (lit "user") user_input ]
                     0.7%Q 0.9%Q 1024) ]).
Proof.
  split; [done |]. split; [| split; [done |]].
  - intros mp w Hfs.
    destruct (FastBrain_frame mp None None w) as (_ & _ & evs & Htr & _ & Hl).
    exists evs. split; [done |].
    by rewrite bool_decide_eq_true_2 in Hl.
  - intros self user_input w h Hllm.
    destruct (generate_response_frame self user_input None None None None w)
      as (_ & _ & evs & Htr & _ & Hcalls).
    exists evs. split; [done |]. by rewrite Hllm in Hcalls.
Qed.

(** C9.  The download helper is idempotent: when the model file is
    already there, a run, and a second run after it, return the path of
    that file, transfer nothing and leave the files and the model hub as
    they were. *)
Theorem download_idempotent (w : World) :
  is_Some (fs w !! (MODEL_DIR /: FILENAME)) →
  ∃ w1 w2,
    download_fast_brain_model w = (Ok (MODEL_DIR /: FILENAME), w1)
    ∧ download_fast_brain_model w1 = (Ok (MODEL_DIR /: FILENAME), w2)
    ∧ fs w1 = fs w ∧ fs w2 = fs w ∧ ext w1 = ext w ∧ ext w2 = ext w
    ∧ ∃ evs, trace w2 = trace w ++ evs ∧ download_calls evs = [].
Proof.
  intros Hex. eexists. eexists. split; [by apply download_present |].
  split; [by apply download_present |].
  proj. repeat split. eexists. split; [by rewrite <- app_assoc | done].
Qed.

(** C10.  In each iteration of the interactive loop the line is stripped
    before anything else is done with it: every request that the loop
    sends carries the stripped form of a typed line, which is not empty
    and is neither [quit] nor [exit] in any case; an iteration whose
    stripped line is empty goes on to the next line without a call; and
    an iteration whose stripped line is [quit] or [exit] in any case ends
    the loop there, without a call and whatever lines follow. *)
Theorem interactive_loop_discipline (brain : nat) :
  (∀ (stdin : list Keyboard) (w : World),
     ∃ evs, trace (interactive_loop brain stdin w).2 = trace w ++ evs
            ∧ Forall (from_typed_line stdin) (chat_calls evs))
  ∧ (∀ (l : pystr) (rest : list Keyboard) (w : World),
       strip l = [] →
       interactive_loop brain (Line l :: rest) w =
         interactive_loop brain rest
           (mkWorld (fs w) (heap w) (ext w) (ticks w)
              (trace w ++ [EvInput (10%N :: lit "You: ")])))
  ∧ (∀ (l : pystr) (rest : list Keyboard) (w : World),
       caseless_eq (strip l) (lit "quit")
       ∨ caseless_eq (strip l) (lit "exit") →
       interactive_loop brain (Line l :: rest) w =
         (Ok (),
          mkWorld (fs w) (heap w) (ext w) (ticks w)
            (trace w ++
             [ EvInput (10%N :: lit "You: ");
               EvLog INFO "Goodbye." [] ]))).
Proof.
  split; [apply interactive_loop_calls |].
  split; [apply interactive_loop_blank | apply interactive_loop_quit].
Qed.

End Properties.

(** * The claims on the demo machine *)

Lemma FastBrain_model_not_found_witness :
  fs (Demo.bare Demo.four 0%nat)
    !! model_path_or_default (Env := Demo.four) None = None
  ∧ ∃ w' : @World Demo.four,
      FastBrain (Env := Demo.four) None None None (Demo.bare Demo.four 0%nat) =
        (Err (FileNotFoundError
                (lit "Model not found at "
                 ++ path_str Demo.model_file
                 ++ lit ". Run 'python scripts/download_models.py' first.")),
         w')
      ∧ trace w' = [] ∧ ext w' = 0%nat ∧ fs w' = ∅.
Proof.
  split; [reflexivity |].
  apply (FastBrain_model_not_found (Env := Demo.four) None None None
           (Demo.bare Demo.four 0%nat)).
  reflexivity.
Defined.

Lemma generate_response_delegates_witness :
  ∃ w' : @World Demo.four,
    generate_response (Env := Demo.four) 0 [] (Some (lit "Be brief."))
        (Some 0.2%Q) (Some 0.5%Q) (Some 16) (Demo.loaded Demo.four 0%nat 7%nat)
      = (Ok (lit "Four"), w')
    ∧ ext w' = 1%nat
    ∧ ∃ evs, trace w' = [] ++ evs
        ∧ chat_calls evs =
            [ (7%nat,
               mkChatRequest
                 [ mkMessage (lit "system") (lit "Be brief.");
                   mkMessage (lit "user") [] ]
                 0.2%Q 0.5%Q 16) ].
Proof.
  apply (generate_response_delegates (Env := Demo.four) 0 []
           (lit "Be brief.") 0.2%Q 0.5%Q 16 (Demo.loaded Demo.four 0%nat 7%nat)
           7%nat Demo.reply [] (mkUsage 3) 1%nat);
    reflexivity.
Defined.

Lemma generate_response_throughput_witness :
  ∃ w' : @World Demo.frozen,
    generate_response (Env := Demo.frozen) 0 (lit "hi") None None None None
        (Demo.loaded Demo.frozen 0%nat 7%nat)
      = (Ok (lit "Four"), w')
    ∧ last (trace w') =
        Some (EvLog INFO "Generated %d tokens in %.2fs (%.1f t/s)"
                [AInt 3; ANum 0%Q; ANum 0%Q]).
Proof.
  apply (generate_response_throughput (Env := Demo.frozen) 0 (lit "hi")
           None None None None (Demo.loaded Demo.frozen 0%nat 7%nat)
           7%nat Demo.reply [] (mkUsage 3) 1%nat).
  - vm_compute. discriminate.
  - reflexivity.
  - reflexivity.
Defined.

Lemma smoke_exit_code_witness :
  (exit_status
     (main (Env := Demo.four) true [] (Demo.installed Demo.four 0%nat)).1 = 0
   ↔ strip (lit "Four") ≠ [])
  ∧ (strip (lit "Four") = [] →
     exit_status
       (main (Env := Demo.four) true [] (Demo.installed Demo.four 0%nat)).1 = 1).
Proof.
  apply (smoke_exit_code (Env := Demo.four) [] (Demo.installed Demo.four 0%nat)
           7%nat 1%nat 2%nat Demo.reply [] (mkUsage 3)).
  - vm_compute. eauto.
  - reflexivity.
  - reflexivity.
Defined.

Lemma engine_failures_propagate_witness :
  (∃ w' : @World Demo.broken,
     FastBrain (Env := Demo.broken) None None None (Demo.installed Demo.broken 0%nat)
       = (Err (Raised "CUDA out of memory"), w')
     ∧ ext w' = 1%nat
     ∧ ∃ evs, trace w' = [] ++ evs
         ∧ load_calls evs =
             [mkLoadArgs (path_str Demo.model_file) (-1) 4096 false])
  ∧ (∃ w' : @World Demo.broken,
       generate_response (Env := Demo.broken) 0 (lit "hi") None None None
           None (Demo.loaded Demo.broken 0%nat 7%nat)
         = (Err (Raised "context window exceeded"), w')
       ∧ ext w' = 1%nat
       ∧ ∃ evs, trace w' = [] ++ evs
           ∧ chat_calls evs =
               [(7%nat, request_of (lit "hi") None None None None)]).
Proof.
  destruct (engine_failures_propagate (Env := Demo.broken))
    as [Hload Hchat].
  split.
  - apply (Hload None None None (Demo.installed Demo.broken 0%nat)
             (Raised "CUDA out of memory") 1%nat).
    + vm_compute. eauto.
    + reflexivity.
  - apply (Hchat 0%nat (lit "hi") None None None None
             (Demo.loaded Demo.broken 0%nat 7%nat) 7%nat
             (Raised "context window exceeded") 1%nat);
      reflexivity.
Defined.

Lemma model_path_resolution_witness :
  fast_brain_file (Environment := Demo.four) =
    Demo.root /: lit "src" /: lit "core" /: lit "brains"
              /: lit "fast_brain.py"
  ∧ model_path_or_default (Env := Demo.four) None =
      Demo.root /: lit "models" /: lit "fast_brain"
                /: lit "Meta-Llama-3.1-8B-Instruct-Q4_K_M.gguf".
Proof.
  destruct (model_path_resolution (Env := Demo.four))
    as (_ & Hdefault & _).
  split; [reflexivity |].
  apply (Hdefault Demo.root). reflexivity.
Defined.

Lemma interface_defaults_witness :
  (∃ evs,
     trace (FastBrain (Env := Demo.four) None None None
              (Demo.installed Demo.four 0%nat)).2 = [] ++ evs
     ∧ load_calls evs =
         [mkLoadArgs (path_str Demo.model_file) (-1) 4096 false])
  ∧ (∃ evs,
       trace (generate_response (Env := Demo.four) 0 (lit "hi") None None
                None None (Demo.loaded Demo.four 0%nat 7%nat)).2 = [] ++ evs
       ∧ chat_calls evs =
           [ (7%nat,
              mkChatRequest
                [ mkMessage (lit "system") AEGIS_SYSTEM_PROMPT;
                  mkMessage (lit "user") (lit "hi") ]
                0.7%Q 0.9%Q 1024) ]).
Proof.
  destruct (interface_defaults (Env := Demo.four))
    as (_ & Hload & _ & Hchat).
  split.
  - apply (Hload None (Demo.installed Demo.four 0%nat)). vm_compute. eauto.
  - apply (Hchat 0%nat (lit "hi") (Demo.loaded Demo.four 0%nat 7%nat) 7%nat).
    reflexivity.
Defined.

Lemma download_idempotent_witness :
  ∃ w1 w2 : @World Demo.four,
    download_fast_brain_model (Env := Demo.four) (Demo.installed Demo.four 0%nat)
      = (Ok Demo.model_file, w1)
    ∧ download_fast_brain_model (Env := Demo.four) w1
      = (Ok Demo.model_file, w2)
    ∧ fs w1 = {[ Demo.model_file := File ]}
    ∧ fs w2 = {[ Demo.model_file := File ]}
    ∧ ext w1 = 0%nat ∧ ext w2 = 0%nat
    ∧ ∃ evs, trace w2 = [] ++ evs ∧ download_calls evs = [].
Proof.
  apply (download_idempotent (Env := Demo.four) (Demo.installed Demo.four 0%nat)).
  vm_compute. eauto.
Defined.

Lemma interactive_loop_discipline_witness :
  caseless_eq (strip (lit "  QuIt ")) (lit "quit")
  ∧ (interactive_loop (Env := Demo.four) 0
       [Line (lit "  QuIt "); Line (lit "more")]
       (Demo.loaded Demo.four 0%nat 7%nat)).1 = Ok ()
  ∧ chat_calls
      (trace (interactive_loop (Env := Demo.four) 0
                [Line (lit "  QuIt "); Line (lit "more")]
                (Demo.loaded Demo.four 0%nat 7%nat)).2) = [].
Proof.
  destruct (interactive_loop_discipline (Env := Demo.four) 0)
    as (_ & _ & Hquit).
  assert (caseless_eq (strip (lit "  QuIt ")) (lit "quit")) as Hc
    by (vm_compute; repeat constructor).
  split; [exact Hc |].
  rewrite (Hquit (lit "  QuIt ") [Line (lit "more")]
             (Demo.loaded Demo.four 0%nat 7%nat) (or_introl Hc)).
  split; reflexivity.
Defined.

(** * Further properties of the code *)

Section Extras.
Context `{Env : Environment}.

Ltac fields := cbn [fs heap ext ticks trace choices usage fst snd].

(** ** fast_brain.py *)

(** X1.  When the resolved path exists and the engine loads the model, the
    construction returns a new object that holds the resolved path and the
    handle of the engine; no other object and no file is touched, and the
    engine was asked for exactly one load, with the path as a string, the
    offload and context sizes given, and [verbose=False]. *)
Theorem FastBrain_constructs
    (mp : option Path) (ngl nctx : option Z) (w : World)
    (h : Handle) (x : ExtState) :
  let p := model_path_or_default mp in
  let args := mkLoadArgs (path_str p) (default default_n_gpu_layers ngl)
                (default default_n_ctx nctx) false in
  is_Some (fs w !! p) →
  Llama args (ext w) = (Ok h, x) →
  ∃ self w',
    FastBrain mp ngl nctx w = (Ok self, w')
    ∧ heap w !! self = None
    ∧ heap w' !! self = Some (mkFastBrainObj (Some p) (Some h))
    ∧ (∀ l, l ≠ self → heap w' !! l = heap w !! l)
    ∧ fs w' = fs w ∧ ext w' = x
    ∧ ∃ evs, trace w' = trace w ++ evs
        ∧ load_calls evs = [args] ∧ chat_calls evs = [].
Proof.
  intros p args Hfs Hload. eexists. eexists.
  split; [by apply FastBrain_loaded |]. fields.
  split; [apply not_elem_of_dom, is_fresh |].
  split; [apply lookup_constructed |].
  split.
  - intros l Hl. unfold constructed.
    by rewrite !lookup_alter_ne, lookup_insert_ne.
  - repeat split. eexists. split; [done |]. done.
Qed.

(** X2.  A brain answers with the engine that it loaded: a construction
    followed by [generate_response] on the new object loads the model
    once, sends the one request to the handle that the load returned, and
    returns the content of the first choice. *)
Theorem fresh_brain_answers
    (mp : option Path) (ngl nctx : option Z) (w : World)
    (h : Handle) (x1 x2 : ExtState)
    (user_input : pystr) (sp : option pystr) (temp tp : option Q)
    (mt : option Z) (c : Choice) (cs : list Choice) (u : Usage) :
  let p := model_path_or_default mp in
  let args := mkLoadArgs (path_str p) (default default_n_gpu_layers ngl)
                (default default_n_ctx nctx) false in
  let req := request_of user_input sp temp tp mt in
  is_Some (fs w !! p) →
  Llama args (ext w) = (Ok h, x1) →
  create_chat_completion h req x1 = (Ok (mkCompletion (c :: cs) u), x2) →
  ∃ self w1 w2,
    FastBrain mp ngl nctx w = (Ok self, w1)
    ∧ generate_response self user_input sp temp tp mt w1
      = (Ok (content (message c)), w2)
    ∧ ∃ evs, trace w2 = trace w ++ evs
        ∧ load_calls evs = [args] ∧ chat_calls evs = [(h, req)].
Proof.
  intros p args req Hfs Hload Hchat. eexists. eexists. eexists.
  split; [by apply FastBrain_loaded |].
  split.
  - apply (generate_response_ok _ user_input sp temp tp mt _ h c cs u x2).
    + fields. by rewrite lookup_constructed.
    + exact Hchat.
  - fields. eexists. split; [by rewrite <- app_assoc |]. done.
Qed.

(** X3.  When the engine answers without any choice, [generate_response]
    raises [IndexError]: the engine was asked once and its state is the
    one after that call, and the record of the generated tokens is not
    logged, the request being the last event. *)
Theorem generate_response_empty_choices
    (self : nat) (user_input : pystr) (sp : option pystr)
    (temp tp : option Q) (mt : option Z) (w : World)
    (h : Handle) (u : Usage) (x : ExtState) :
  let req := request_of user_input sp temp tp mt in
  heap w !! self ≫= llm = Some h →
  create_chat_completion h req (ext w) = (Ok (mkCompletion [] u), x) →
  ∃ w',
    generate_response self user_input sp temp tp mt w = (Err IndexError, w')
    ∧ ext w' = x ∧ heap w' = heap w
    ∧ last (trace w') = Some (EvChat h req)
    ∧ ∃ evs, trace w' = trace w ++ evs ∧ chat_calls evs = [(h, req)].
Proof.
  intros req Hllm Hchat. eexists.
  split; [by apply (generate_response_no_choice _ _ _ _ _ _ _ h u x) |].
  fields. repeat split; [by rewrite last_app |].
  eexists. split; done.
Qed.

(** X4.  The result of [generate_response] depends on the engine alone:
    it is [AttributeError] on an object without an engine, the exception
    of the engine when it raises, [IndexError] when it answers without a
    choice, and the content of the first choice otherwise; the clock and
    the throughput never turn an answer into a failure. *)
Theorem generate_response_result
    (self : nat) (user_input : pystr) (sp : option pystr)
    (temp tp : option Q) (mt : option Z) (w : World) :
  (generate_response self user_input sp temp tp mt w).1 =
    match heap w !! self ≫= llm with
    | None => Err (AttributeError "llm")
    | Some h =>
        match (create_chat_completion h
                 (request_of user_input sp temp tp mt) (ext w)).1 with
        | Ok completion =>
            match choices completion with
            | c :: _ => Ok (content (message c))
            | [] => Err IndexError
            end
        | Err e => Err e
        end
    end.
Proof.
  destruct (heap w !! self ≫= llm) as [h |] eqn:Hllm.
  - destruct (create_chat_completion h (request_of user_input sp temp tp mt)
                (ext w)) as [[[[| c cs] u] | e] x] eqn:Hchat.
    + by rewrite (generate_response_no_choice _ _ _ _ _ _ _ _ _ _ Hllm Hchat).
    + by rewrite (generate_response_ok _ _ _ _ _ _ _ _ _ _ _ _ Hllm Hchat).
    + by rewrite (generate_response_err _ _ _ _ _ _ _ _ _ _ Hllm Hchat).
  - by rewrite (generate_response_no_llm _ _ _ _ _ _ _ Hllm).
Qed.

(** X5.  The result of a construction depends on the file and on the
    engine alone: [FileNotFoundError] when the resolved path is missing,
    the exception of the engine when the load raises, and otherwise the
    address of a new object. *)
Theorem FastBrain_result
    (mp : option Path) (ngl nctx : option Z) (w : World) :
  let p := model_path_or_default mp in
  (FastBrain mp ngl nctx w).1 =
    match fs w !! p with
    | None =>
        Err (FileNotFoundError
               (lit "Model not found at " ++ path_str p
                ++ lit ". Run 'python scripts/download_models.py' first."))
    | Some _ =>
        match (Llama (mkLoadArgs (path_str p)
                        (default default_n_gpu_layers ngl)
                        (default default_n_ctx nctx) false) (ext w)).1 with
        | Ok _ => Ok (fresh (dom (heap w)))
        | Err e => Err e
        end
    end.
Proof.
  intros p. destruct (fs w !! p) as [k |] eqn:Hfs.
  - assert (is_Some (fs w !! p)) as Hex by (by rewrite Hfs).
    destruct (Llama (mkLoadArgs (path_str p) (default default_n_gpu_layers ngl)
                       (default default_n_ctx nctx) false) (ext w))
      as [[h | e] x] eqn:Hload.
    + by rewrite (FastBrain_loaded mp ngl nctx w h x Hex Hload).
    + by rewrite (FastBrain_load_failed mp ngl nctx w e x Hex Hload).
  - by rewrite (FastBrain_missing mp ngl nctx w Hfs).
Qed.

(** ** download_models.py *)

Lemma make_dirs_lookup_out
    (qs : list Path) (files : gmap Path entry) (q : Path) :
  q ∉ qs → make_dirs qs files !! q = files !! q.
Proof.
  revert files. induction qs as [| q' qs IH]; intros files Hq; [done |].
  apply not_elem_of_cons in Hq as [Hne Hq]. cbn.
  fold (make_dirs qs (<[q' := Dir]> files)).
  rewrite IH by done. by rewrite lookup_insert_ne.
Qed.

Lemma make_dirs_lookup_in
    (qs : list Path) (files : gmap Path entry) (q : Path) :
  q ∈ qs → make_dirs qs files !! q = Some Dir.
Proof.
  revert files. induction qs as [| q' qs IH]; intros files Hq.
  { by apply elem_of_nil in Hq. }
  cbn. fold (make_dirs qs (<[q' := Dir]> files)).
  destruct (decide (q ∈ qs)) as [Hin | Hout]; [by apply IH |].
  apply elem_of_cons in Hq as [-> | Hq]; [| done].
  rewrite make_dirs_lookup_out by done. apply lookup_insert_eq.
Qed.

(** Making a directory over nothing or over a directory succeeds. *)
Lemma mkdir_one_ok (q : Path) (last : bool) (w : World) :
  fs w !! q ≠ Some File →
  mkdir_one q last w =
    (Ok (), mkWorld (<[q := Dir]> (fs w)) (heap w) (ext w) (ticks w)
              (trace w)).
Proof.
  intros Hq. unfold mkdir_one.
  destruct (fs w !! q) as [[|] |] eqn:Hlook; [done | | done].
  rewrite insert_id by done. by destruct w.
Qed.

Lemma not_file_after_mkdir
    (q : Path) (files : gmap Path entry) (qs : list Path) :
  Forall (λ q', files !! q' ≠ Some File) qs →
  Forall (λ q', <[q := Dir]> files !! q' ≠ Some File) qs.
Proof.
  intros Hall. eapply Forall_impl; [exact Hall |].
  intros q' Hq'. rewrite lookup_insert. by case_decide.
Qed.

(** When no file is in the way, all the directories get made. *)
Lemma mkdirs_ok (qs : list Path) :
  ∀ w, Forall (λ q, fs w !! q ≠ Some File) qs →
       mkdirs qs w =
         (Ok (), mkWorld (make_dirs qs (fs w)) (heap w) (ext w) (ticks w)
                   (trace w)).
Proof.
  induction qs as [| q qs IH]; intros w Hall.
  { cbn. unfold ret. by destruct w. }
  apply Forall_cons in Hall as [Hq Hall].
  cbn [mkdirs]. unfold bind. rewrite (mkdir_one_ok _ _ _ Hq).
  rewrite IH by (by apply not_file_after_mkdir). done.
Qed.

(** A file at the end of the chain stops it there. *)
Lemma mkdirs_blocked (qs : list Path) (d : Path) :
  ∀ w, Forall (λ q, fs w !! q ≠ Some File) qs →
       fs w !! d = Some File →
       mkdirs (qs ++ [d]) w =
         (Err (FileExistsError d),
          mkWorld (make_dirs qs (fs w)) (heap w) (ext w) (ticks w) (trace w)).
Proof.
  induction qs as [| q qs IH]; intros w Hall Hd.
  { cbn. unfold bind, mkdir_one. rewrite Hd. cbn. by destruct w. }
  apply Forall_cons in Hall as [Hq Hall].
  cbn [mkdirs app]. unfold bind at 1. rewrite (mkdir_one_ok _ _ _ Hq).
  rewrite IH; [done | by apply not_file_after_mkdir |].
  fields. rewrite lookup_insert_ne; [done |]. by intros ->.
Qed.

Lemma prefixes_snoc {A} (l : list A) (x : A) :
  prefixes (l ++ [x]) = prefixes l ++ [l ++ [x]].
Proof.
  induction l as [| y l IH]; [done |].
  cbn. rewrite IH, fmap_app. done.
Qed.

(** The chain of a path is the chain of its parent and the path. *)
Lemma lineage_snoc (p : Path) :
  parts p ≠ [] → lineage p = lineage (parent p) ++ [p].
Proof.
  destruct p as [a ps]. cbn. intros Hps.
  destruct (exists_last Hps) as (l & x & ->).
  unfold lineage, parent. cbn. rewrite removelast_last, prefixes_snoc.
  by rewrite fmap_app.
Qed.

Lemma path_div_name (root : Path) (name : pystr) :
  Path_of_str name = mkPath false [name] →
  root /: name = mkPath (absolute root) (parts root ++ [name]).
Proof. intros Hname. unfold path_div. by rewrite Hname. Qed.

Lemma MODEL_DIR_parts : parts MODEL_DIR ≠ [].
Proof.
  unfold MODEL_DIR. rewrite !path_div_name by done. cbn [parts].
  intros Hnil. apply (f_equal length) in Hnil.
  rewrite !length_app in Hnil. cbn [length] in Hnil. lia.
Qed.

(** X6.  When the two scripts sit in the same project, the file that the
    download helper looks for is the default model of the wrapper: once
    the helper has found it in place, the default construction gets past
    its check of the file and asks the engine for the load. *)
Theorem helper_and_wrapper_agree
    (root : Path) (ngl nctx : option Z) (w : World) :
  fast_brain_file =
    root /: lit "src" /: lit "core" /: lit "brains" /: lit "fast_brain.py" →
  download_models_file = root /: lit "scripts" /: lit "download_models.py" →
  is_Some (fs w !! (MODEL_DIR /: FILENAME)) →
  MODEL_DIR /: FILENAME = DEFAULT_MODEL_PATH
  ∧ ∃ w1,
      download_fast_brain_model w = (Ok DEFAULT_MODEL_PATH, w1)
      ∧ ∃ evs,
          trace (FastBrain None ngl nctx w1).2 = trace w1 ++ evs
          ∧ load_calls evs =
              [ mkLoadArgs (path_str DEFAULT_MODEL_PATH)
                  (default default_n_gpu_layers ngl)
                  (default default_n_ctx nctx) false ].
Proof.
  intros Hfile1 Hfile2 Hex.
  pose proof (download_target_is_default root Hfile1 Hfile2) as Hsame.
  split; [done |]. eexists.
  split; [rewrite <- Hsame; by apply download_present |].
  match goal with
  | |- context [FastBrain None ngl nctx ?W] =>
      destruct (FastBrain_frame None ngl nctx W) as (_ & _ & evs & Htr & _ & Hl)
  end.
  exists evs. split; [done |].
  revert Hl. fields. cbn [model_path_or_default]. rewrite <- Hsame.
  by rewrite bool_decide_eq_true_2.
Qed.

(** X7.  When the model file is missing and no file is in the way of the
    model directory, the helper makes the directory and its ancestors,
    asks the hub once for [FILENAME] of [REPO_ID] into [MODEL_DIR], and
    returns the path that the hub gives, or raises what the hub raises;
    at the time of the transfer the directory exists and every other
    entry is as before. *)
Theorem download_when_absent
    (w : World) (r : result ExtExn pystr) (x : ExtState)
    (files : gmap Path entry) :
  let ready := make_dirs (lineage MODEL_DIR) (fs w) in
  fs w !! (MODEL_DIR /: FILENAME) = None →
  Forall (λ q, fs w !! q ≠ Some File) (lineage MODEL_DIR) →
  hf_hub_download REPO_ID FILENAME MODEL_DIR (ext w) ready = (r, x, files) →
  ready !! MODEL_DIR = Some Dir
  ∧ (∀ q, q ∉ lineage MODEL_DIR → ready !! q = fs w !! q)
  ∧ ∃ w',
      download_fast_brain_model w =
        (match r with Ok s => Ok (Path_of_str s) | Err e => Err e end, w')
      ∧ fs w' = files ∧ ext w' = x
      ∧ ∃ evs, trace w' = trace w ++ evs
          ∧ download_calls evs = [(REPO_ID, FILENAME, MODEL_DIR)].
Proof.
  intros ready Habsent Hclear Hhub.
  split.
  { apply make_dirs_lookup_in. rewrite (lineage_snoc _ MODEL_DIR_parts).
    apply elem_of_app. right. apply list_elem_of_here. }
  split; [intros q Hq; by apply make_dirs_lookup_out |].
  unfold download_fast_brain_model, mkdir_parents_exist_ok,
    call_hf_hub_download, path_exists, log, bind, emit, ret.
  fields. rewrite Habsent.
  rewrite bool_decide_eq_false_2 by (by intros [? ?]).
  rewrite mkdirs_ok by done. fields. fold ready. rewrite Hhub.
  destruct r as [s | e]; fields.
  - eexists. split; [done |]. fields. repeat split.
    eexists. split; [by rewrite <- !app_assoc | done].
  - eexists. split; [done |]. fields. repeat split.
    eexists. split; [by rewrite <- !app_assoc | done].
Qed.

(** X8.  When the model directory is a regular file, the helper raises
    [FileExistsError] for it and starts no transfer; the hub is left as
    it was. *)
Theorem download_blocked_by_file (w : World) :
  fs w !! (MODEL_DIR /: FILENAME) = None →
  Forall (λ q, fs w !! q ≠ Some File) (lineage (parent MODEL_DIR)) →
  fs w !! MODEL_DIR = Some File →
  ∃ w',
    download_fast_brain_model w = (Err (FileExistsError MODEL_DIR), w')
    ∧ ext w' = ext w
    ∧ ∃ evs, trace w' = trace w ++ evs ∧ download_calls evs = [].
Proof.
  intros Habsent Hclear Hfile.
  unfold download_fast_brain_model, mkdir_parents_exist_ok,
    path_exists, log, bind, emit, ret.
  fields. rewrite Habsent.
  rewrite bool_decide_eq_false_2 by (by intros [? ?]).
  rewrite (lineage_snoc _ MODEL_DIR_parts).
  rewrite mkdirs_blocked by done. fields.
  eexists. split; [done |]. fields. split; [done |].
  eexists. split; [by rewrite <- !app_assoc | done].
Qed.

(** X9.  The exit of [download_models.py]: the status is 0 when the
    helper returns; when the helper raises an [Exception], the failure is
    logged as an error and the status is 1; another exception passes
    through untouched. *)
Theorem download_models_main_exit
    (ext_is_exception : ExtExn → bool) (w : World) :
  match (download_fast_brain_model w).1 with
  | Ok path =>
      (download_models_main ext_is_exception w).1 = Ok ()
      ∧ last (trace (download_models_main ext_is_exception w).2)
        = Some (EvLog INFO "Model ready at: %s" [APath path])
  | Err e =>
      if is_Exception ext_is_exception e then
        (download_models_main ext_is_exception w).1 = Err (SystemExit 1)
        ∧ last (trace (download_models_main ext_is_exception w).2)
          = Some (EvLog ERROR "Failed to download model" [])
      else
        download_models_main ext_is_exception w
          = (Err e, (download_fast_brain_model w).2)
  end.
Proof.
  unfold download_models_main.
  destruct (download_fast_brain_model w) as [[path | e] w'] eqn:Hrun; fields.
  - unfold log, emit. fields. split; [done | by rewrite last_snoc].
  - destruct (is_Exception ext_is_exception e); [| done].
    unfold log, bind, emit, sys_exit, raise. fields.
    split; [done | by rewrite last_snoc].
Qed.

(** ** test_fast_brain.py *)

(** X10.  The verdict of the smoke test depends on the engine alone: the
    test sends the test prompt with the defaults of the interface, passes
    when something is left of the content of the first choice after
    stripping, fails when nothing is left, and raises what
    [generate_response] raises. *)
Theorem run_smoke_test_result (brain : nat) (w : World) :
  (run_smoke_test brain w).1 =
    match heap w !! brain ≫= llm with
    | None => Err (AttributeError "llm")
    | Some h =>
        match (create_chat_completion h
                 (mkChatRequest
                    [ mkMessage (lit "system") AEGIS_SYSTEM_PROMPT;
                      mkMessage (lit "user")
                        (lit "What is 2 + 2? Answer in one word.") ]
                    0.7%Q 0.9%Q 1024) (ext w)).1 with
        | Ok completion =>
            match choices completion with
            | c :: _ => Ok (negb (bool_decide (strip (content (message c)) = [])))
            | [] => Err IndexError
            end
        | Err e => Err e
        end
    end.
Proof.
  unfold run_smoke_test, log, time_monotonic, bind, emit, ret. fields.
  match goal with
  | |- context [generate_response brain test_prompt None None None None ?W] =>
      pose proof (generate_response_result brain test_prompt None None None
                    None W) as Hres;
      destruct (generate_response brain test_prompt None None None None W)
        as [r w'] eqn:Hrun
  end.
  revert Hres. fields. intros ->.
  change (request_of test_prompt None None None None)
    with (mkChatRequest
            [ mkMessage (lit "system") AEGIS_SYSTEM_PROMPT;
              mkMessage (lit "user")
                (lit "What is 2 + 2? Answer in one word.") ]
            0.7%Q 0.9%Q 1024).
  destruct (heap w !! brain ≫= llm) as [h |]; [| done].
  destruct (create_chat_completion _ _ _) as [[[[| c cs] u] | e] x];
    fields; [done | | done].
  rewrite smoke_condition.
  by destruct (bool_decide (strip (content (message c)) = [])).
Qed.



(** X12.  An iteration on a line that is neither blank nor [quit] nor
    [exit], with an engine that answers: the stripped line is sent once
    with the defaults of the interface, the content of the first choice is
    printed after [A.E.G.I.S: ], and the loop goes on with the next
    line. *)
Theorem interactive_loop_prints_answer
    (brain : nat) (l : pystr) (rest : list Keyboard) (w : World)
    (h : Handle) (c : Choice) (cs : list Choice) (u : Usage) (x : ExtState) :
  let req := request_of (strip l) None None None None in
  strip l ≠ [] →
  is_quit (strip l) = false →
  heap w !! brain ≫= llm = Some h →
  create_chat_completion h req (ext w) = (Ok (mkCompletion (c :: cs) u), x) →
  ∃ w',
    interactive_loop brain (Line l :: rest) w = interactive_loop brain rest w'
    ∧ heap w' = heap w ∧ fs w' = fs w ∧ ext w' = x
    ∧ ∃ evs, trace w' = trace w ++ evs
        ∧ chat_calls evs = [(h, req)]
        ∧ (∃ t, last evs = Some (EvLog INFO "(Response time: %.2fs)" [ANum t]))
        ∧ EvPrint (10%N :: lit "A.E.G.I.S: " ++ content (message c)) ∈ evs.
Proof.
  intros req Hne Hq Hllm Hchat.
  rewrite (interactive_loop_ask _ _ _ _ Hne Hq).
  erewrite generate_response_ok; [| exact Hllm | exact Hchat]. fields.
  eexists. split; [done |]. fields. repeat split.
  eexists. split; [by rewrite <- !app_assoc |].
  split; [done |]. split; [by eexists |].
  do 4 apply list_elem_of_further. apply list_elem_of_here.
Qed.

(** X13.  A failure of the brain ends the interactive loop with that
    failure: nothing is printed for the line, and the lines that follow
    are never read. *)
Theorem interactive_loop_failure_stops
    (brain : nat) (l : pystr) (rest : list Keyboard) (w : World)
    (h : Handle) (e : exn ExtExn) (x : ExtState) :
  let req := request_of (strip l) None None None None in
  strip l ≠ [] →
  is_quit (strip l) = false →
  heap w !! brain ≫= llm = Some h →
  create_chat_completion h req (ext w) = (Err e, x) →
  ∃ w',
    interactive_loop brain (Line l :: rest) w = (Err e, w')
    ∧ last (trace w') = Some (EvChat h req)
    ∧ interactive_loop brain (Line l :: rest) w
      = interactive_loop brain [Line l] w.
Proof.
  intros req Hne Hq Hllm Hchat.
  rewrite !(interactive_loop_ask _ _ _ _ Hne Hq).
  erewrite generate_response_err; [| exact Hllm | exact Hchat].
  eexists. split; [done |]. fields. split; [by rewrite last_app | done].
Qed.

(** Whatever the engine does, the loop keeps the heap and the files and
    never loads a model. *)
Lemma interactive_loop_frame (brain : nat) (stdin : list Keyboard) :
  ∀ w, let w' := (interactive_loop brain stdin w).2 in
       heap w' = heap w ∧ fs w' = fs w
       ∧ ∃ evs, trace w' = trace w ++ evs ∧ load_calls evs = [].
Proof.
  assert (∀ w : World,
            let w' := (bind (emit (EvInput (10%N :: lit "You: ")))
                         (λ _, log INFO (String newline "Exiting.") []) w).2 in
            heap w' = heap w ∧ fs w' = fs w
            ∧ ∃ evs, trace w' = trace w ++ evs ∧ load_calls evs = [])
    as Hleave.
  { intros w. unfold log, bind, emit. fields. repeat split.
    eexists. split; [by rewrite <- !app_assoc | done]. }
  induction stdin as [| k rest IH]; intros w; [apply Hleave |].
  destruct k as [l | |]; [| apply Hleave | apply Hleave].
  destruct (decide (strip l = [])) as [Hblank | Hne].
  { rewrite (interactive_loop_blank _ _ _ _ Hblank).
    match goal with
    | |- context [interactive_loop brain rest ?W] =>
        destruct (IH W) as (Hheap & Hfs & evs & Htr & Hload)
    end.
    revert Hheap Hfs Htr. fields. intros Hheap Hfs Htr.
    repeat split; [done | done |].
    exists (EvInput (10%N :: lit "You: ") :: evs).
    split; [rewrite Htr; by rewrite <- app_assoc | done]. }
  destruct (is_quit (strip l)) eqn:Hq.
  { cbn [interactive_loop]. unfold log, bind, emit. fields.
    rewrite bool_decide_eq_false_2 by done. unfold is_quit in Hq.
    rewrite Hq. fields. repeat split.
    eexists. split; [by rewrite <- !app_assoc | done]. }
  rewrite (interactive_loop_ask _ _ _ _ Hne Hq).
  match goal with
  | |- context [generate_response brain (strip l) None None None None ?W] =>
      pose proof (generate_response_frame brain (strip l) None None None None
                    W) as Hf;
      destruct (generate_response brain (strip l) None None None None W)
        as [r w3]
  end.
  revert Hf. fields. intros (Hheap3 & Hfs3 & evg & Htr3 & Hload3 & _).
  destruct r as [response | e].
  - match goal with
    | |- context [interactive_loop brain rest ?W] =>
        destruct (IH W) as (Hheap & Hfs & evs & Htr & Hload)
    end.
    revert Hheap Hfs Htr. fields. intros Hheap Hfs Htr.
    split; [congruence |]. split; [congruence |].
    eexists. split.
    + rewrite Htr, Htr3. rewrite <- !app_assoc. reflexivity.
    + cbn [app]. unfold load_calls in *.
      cbn [omap list_omap]. rewrite !omap_app, Hload3. cbn.
      exact Hload.
  - fields. repeat split; [done | done |].
    eexists. split; [rewrite Htr3; by rewrite <- app_assoc |].
    unfold load_calls in *. cbn. exact Hload3.
Qed.

Lemma is_quit_blank : is_quit [] = false.
Proof. reflexivity. Qed.

Lemma questions_blank (l : pystr) (rest : list Keyboard) :
  strip l = [] → questions (Line l :: rest) = questions rest.
Proof.
  intros Hblank. unfold questions. cbn [typed]. rewrite fmap_cons, Hblank.
  cbn [before]. rewrite is_quit_blank. by rewrite filter_cons_False by auto.
Qed.

Lemma questions_quit (l : pystr) (rest : list Keyboard) :
  is_quit (strip l) = true → questions (Line l :: rest) = [].
Proof.
  intros Hq. unfold questions. cbn [typed]. rewrite fmap_cons.
  cbn [before]. by rewrite Hq.
Qed.

Lemma questions_ask (l : pystr) (rest : list Keyboard) :
  strip l ≠ [] → is_quit (strip l) = false →
  questions (Line l :: rest) = strip l :: questions rest.
Proof.
  intros Hne Hq. unfold questions. cbn [typed]. rewrite fmap_cons.
  cbn [before]. rewrite Hq. by rewrite filter_cons_True by done.
Qed.

(** A session with an engine that always answers. *)
Lemma interactive_loop_session
    (brain : nat) (h : Handle) (stdin : list Keyboard) :
  (∀ h' req x, ∃ c cs u x',
     create_chat_completion h' req x = (Ok (mkCompletion (c :: cs) u), x')) →
  ∀ w, heap w !! brain ≫= llm = Some h →
       ∃ w',
         interactive_loop brain stdin w = (Ok (), w')
         ∧ heap w' = heap w ∧ fs w' = fs w
         ∧ ∃ evs, trace w' = trace w ++ evs
             ∧ load_calls evs = []
             ∧ chat_calls evs =
                 (λ s, (h, request_of s None None None None))
                   <$> questions stdin.
Proof.
  intros Hanswers.
  assert (∀ w : World,
            ∃ w',
              bind (emit (EvInput (10%N :: lit "You: ")))
                (λ _, log INFO (String newline "Exiting.") []) w = (Ok (), w')
              ∧ heap w' = heap w ∧ fs w' = fs w
              ∧ ∃ evs, trace w' = trace w ++ evs ∧ load_calls evs = []
                  ∧ chat_calls evs = [])
    as Hleave.
  { intros w. unfold log, bind, emit. fields. eexists. split; [done |].
    fields. repeat split. eexists. split; [by rewrite <- !app_assoc | done]. }
  induction stdin as [| k rest IH]; intros w Hllm; [apply Hleave |].
  destruct k as [l | |]; [| apply Hleave | apply Hleave].
  destruct (decide (strip l = [])) as [Hblank | Hne].
  { rewrite (interactive_loop_blank _ _ _ _ Hblank), (questions_blank _ _ Hblank).
    match goal with
    | |- context [interactive_loop brain rest ?W] =>
        destruct (IH W Hllm) as (w' & Hrun & Hheap & Hfs & evs & Htr & Hl & Hc)
    end.
    revert Hheap Hfs Htr. fields. intros Hheap Hfs Htr.
    exists w'. repeat split; [done | done | done |].
    exists (EvInput (10%N :: lit "You: ") :: evs).
    split; [rewrite Htr; by rewrite <- app_assoc | done]. }
  destruct (is_quit (strip l)) eqn:Hq.
  { rewrite (questions_quit _ _ Hq).
    cbn [interactive_loop]. unfold log, bind, emit. fields.
    rewrite bool_decide_eq_false_2 by done. unfold is_quit in Hq.
    rewrite Hq. fields. eexists. split; [done |]. fields. repeat split.
    eexists. split; [by rewrite <- !app_assoc | done]. }
  rewrite (questions_ask _ _ Hne Hq).
  destruct (Hanswers h (request_of (strip l) None None None None) (ext w))
    as (c & cs & u & x & Hchat).
  destruct (interactive_loop_prints_answer brain l rest w h c cs u x
              Hne Hq Hllm Hchat)
    as (w1 & Hstep & Hheap1 & Hfs1 & _ & evs1 & Htr1 & Hc1 & _ & _).
  rewrite Hstep.
  assert (heap w1 !! brain ≫= llm = Some h) as Hllm1 by (by rewrite Hheap1).
  destruct (IH w1 Hllm1) as (w' & Hrun & Hheap & Hfs & evs & Htr & Hl & Hc).
  exists w'. split; [done |]. split; [congruence |]. split; [congruence |].
  exists (evs1 ++ evs). split; [rewrite Htr, Htr1; by rewrite app_assoc |].
  split.
  - destruct (interactive_loop_frame brain (Line l :: rest) w)
      as (_ & _ & evs' & Htr' & Hl').
    revert Htr'. rewrite Hstep, Hrun. fields. rewrite Htr, Htr1.
    rewrite <- app_assoc. intros Htr'. apply app_inv_head in Htr'.
    by rewrite Htr'.
  - rewrite chat_calls_app, Hc1, Hc. done.
Qed.

(** X14.  An interactive session on a machine with the model, with an
    engine that loads it and always answers: whatever is typed, the
    harness returns normally, having loaded the model once with the
    defaults and sent, in order, the stripped forms of the lines typed
    before the first [quit], [exit], interrupt or end of input, the blank
    ones left out, each with the defaults of the interface. *)
Theorem main_interactive_session
    (stdin : list Keyboard) (w : World) (h : Handle) (x : ExtState) :
  let args := mkLoadArgs (path_str DEFAULT_MODEL_PATH) (-1) 4096 false in
  is_Some (fs w !! DEFAULT_MODEL_PATH) →
  Llama args (ext w) = (Ok h, x) →
  (∀ h' req x', ∃ c cs u x'',
     create_chat_completion h' req x' = (Ok (mkCompletion (c :: cs) u), x'')) →
  ∃ w',
    main false stdin w = (Ok (), w')
    ∧ fs w' = fs w
    ∧ ∃ evs, trace w' = trace w ++ evs
        ∧ load_calls evs = [args]
        ∧ chat_calls evs =
            (λ s, (h, request_of s None None None None)) <$> questions stdin.
Proof.
  intros args Hfs Hload Hanswers.
  unfold main, run_interactive_loop, log, bind, emit. fields.
  erewrite FastBrain_loaded; [| exact Hfs | exact Hload]. fields.
  match goal with
  | |- context [interactive_loop ?b stdin ?W] =>
      destruct (interactive_loop_session b h stdin Hanswers W)
        as (w' & Hrun & _ & Hfs' & evs & Htr & Hl & Hc);
        [fields; by rewrite lookup_constructed |]
  end.
  rewrite Hrun. exists w'. split; [done |].
  revert Hfs' Htr. fields. intros Hfs' Htr. split; [done |].
  eexists. split; [rewrite Htr; rewrite <- !app_assoc; reflexivity |].
  split.
  - cbn [app]. unfold load_calls in *. cbn [omap list_omap]. by rewrite Hl.
  - cbn [app]. unfold chat_calls in *. cbn [omap list_omap]. exact Hc.
Qed.

(** X15.  Whatever is typed and whatever the engine does, the interactive
    loop leaves the brain and every other object as they are, touches no
    file and never loads a model. *)
Theorem interactive_loop_keeps_state
    (brain : nat) (stdin : list Keyboard) (w : World) :
  heap (run_interactive_loop brain stdin w).2 = heap w
  ∧ fs (run_interactive_loop brain stdin w).2 = fs w
  ∧ ∃ evs, trace (run_interactive_loop brain stdin w).2 = trace w ++ evs
      ∧ load_calls evs = [].
Proof.
  unfold run_interactive_loop, log, bind, emit. fields.
  match goal with
  | |- context [interactive_loop brain stdin ?W] =>
      destruct (interactive_loop_frame brain stdin W)
        as (Hheap & Hfs & evs & Htr & Hl)
  end.
  revert Hheap Hfs Htr. fields. intros Hheap Hfs Htr.
  repeat split; [done | done |].
  eexists. split; [rewrite Htr; rewrite <- !app_assoc; reflexivity |].
  cbn [app]. unfold load_calls in *. cbn [omap list_omap]. exact Hl.
Qed.

End Extras.

(** ** check_hardware.py *)

Module HardwareProperties.
Import CheckHardware.

Ltac not_space :=
  unfold isspace;
  repeat (apply orb_false_intro);
  first [ apply N.eqb_neq; lia
        | apply andb_false_iff;
          first [ left; apply N.leb_gt; lia | right; apply N.leb_gt; lia ] ].

Lemma digit_not_space (c : N) : is_digit c = true → isspace c = false.
Proof.
  unfold is_digit. intros [Hlo Hhi]%andb_true_iff.
  apply N.leb_le in Hlo, Hhi. not_space.
Qed.

Lemma linebreak_is_space (c : N) : is_linebreak c = true → isspace c = true.
Proof.
  unfold is_linebreak, isspace. intros H.
  repeat (apply orb_true_iff in H as [H | H]);
    try (apply andb_true_iff in H as [H1 H2];
         apply N.leb_le in H1, H2);
    try apply N.eqb_eq in H.
  - replace ((9 <=? c) && (c <=? 13))%N with true; [done |].
    symmetry. apply andb_true_iff. split; apply N.leb_le; lia.
  - replace ((28 <=? c) && (c <=? 32))%N with true;
      [by rewrite orb_true_r |].
    symmetry. apply andb_true_iff. split; apply N.leb_le; lia.
  - subst c. reflexivity.
  - subst c. reflexivity.
  - subst c. reflexivity.
Qed.

Lemma not_space_not_linebreak (c : N) :
  isspace c = false → is_linebreak c = false.
Proof.
  intros Hs. destruct (is_linebreak c) eqn:Hl; [| done].
  apply linebreak_is_space in Hl. congruence.
Qed.

(** A line without a boundary, closed by a line feed, is the first line
    of the text. *)
Lemma splitlines_line (l rest : pystr) :
  Forall (λ c, is_linebreak c = false) l →
  splitlines (l ++ 10%N :: rest) = l :: splitlines rest.
Proof.
  induction 1 as [| c l Hc Hl IH].
  - cbn [app splitlines]. change (is_linebreak 10) with true. cbn match.
    destruct rest as [| c' rest']; [done |]. done.
  - cbn [app splitlines]. rewrite Hc, IH. done.
Qed.

(** Round trip: the lines of a text made of lines are those lines. *)
Lemma splitlines_unlines (lines : list pystr) (rest : pystr) :
  Forall (Forall (λ c, is_linebreak c = false)) lines →
  splitlines (unlines lines ++ rest) = lines ++ splitlines rest.
Proof.
  induction 1 as [| l lines Hl Hlines IH]; [done |].
  unfold unlines in *. cbn [fmap list_fmap concat].
  rewrite <- !app_assoc. cbn [app].
  by rewrite (splitlines_line _ _ Hl), IH.
Qed.

Lemma read_field_skip
    (int_other : pystr → option Z) (pre lines : list pystr) (field : pystr) :
  Forall (λ l, starts_with field l = false) pre →
  read_field int_other (pre ++ lines) field = read_field int_other lines field.
Proof.
  induction 1 as [| l pre Hl Hpre IH]; [done |].
  cbn [app read_field]. by rewrite Hl.
Qed.

Lemma split_ws_skip (pad rest : pystr) :
  Forall (λ c, isspace c = true) pad → split_ws (pad ++ rest) = split_ws rest.
Proof.
  induction 1 as [| c pad Hc Hpad IH]; [done |].
  cbn [app split_ws]. by rewrite Hc.
Qed.

Lemma split_ws_cons_token (c c2 : N) (s : pystr) :
  isspace c = false → isspace c2 = false →
  split_ws (c :: c2 :: s) =
    match split_ws (c2 :: s) with
    | t :: ts => (c :: t) :: ts
    | [] => [[c]]
    end.
Proof.
  intros Hc Hc2.
  change (split_ws (c :: c2 :: s))
    with (if isspace c then split_ws (c2 :: s)
          else if isspace c2 then [c] :: split_ws (c2 :: s)
               else match split_ws (c2 :: s) with
                    | t :: ts => (c :: t) :: ts
                    | [] => [[c]]
                    end).
  by rewrite Hc, Hc2.
Qed.

(** A token in front of whitespace is the first field. *)
Lemma split_ws_token (t : pystr) (sp : N) (rest : pystr) :
  t ≠ [] → Forall (λ c, isspace c = false) t → isspace sp = true →
  split_ws (t ++ sp :: rest) = t :: split_ws rest.
Proof.
  intros Hne Ht Hsp. induction Ht as [| c t Hc Ht IH]; [done |].
  destruct t as [| c2 t'].
  - cbn [app split_ws]. by rewrite Hc, Hsp.
  - apply Forall_cons in Ht as Hc2. destruct Hc2 as [Hc2 _].
    change ((c :: c2 :: t') ++ sp :: rest)
      with (c :: c2 :: (t' ++ sp :: rest)).
    rewrite (split_ws_cons_token _ _ _ Hc Hc2).
    change (c2 :: t' ++ sp :: rest) with ((c2 :: t') ++ sp :: rest).
    by rewrite IH.
Qed.

(** A token alone is the only field. *)
Lemma split_ws_single (t : pystr) :
  t ≠ [] → Forall (λ c, isspace c = false) t → split_ws t = [t].
Proof.
  intros Hne Ht. induction Ht as [| c t Hc Ht IH]; [done |].
  destruct t as [| c2 t'].
  - cbn [split_ws]. by rewrite Hc.
  - apply Forall_cons in Ht as Hc2. destruct Hc2 as [Hc2 _].
    rewrite (split_ws_cons_token _ _ _ Hc Hc2). by rewrite IH.
Qed.

Lemma starts_with_app (field rest : pystr) :
  starts_with field (field ++ rest) = true.
Proof.
  induction field as [| c field IH]; [done |].
  cbn. by rewrite N.eqb_refl, IH.
Qed.

Lemma starts_with_longer (field name rest : pystr) :
  starts_with field name = true → starts_with field (name ++ rest) = true.
Proof.
  revert name. induction field as [| c field IH]; intros name H; [done |].
  destruct name as [| c' name]; [done |].
  cbn in *. apply andb_true_iff in H as [H1 H2]. by rewrite H1, IH.
Qed.

(** X16.  A field that no line of the file starts with reads as 0; this
    is so for the empty file. *)
Theorem read_meminfo_field_missing
    (int_other : pystr → option Z) (meminfo field : pystr) :
  Forall (λ l, starts_with field l = false) (splitlines meminfo) →
  _read_meminfo_field int_other meminfo field = Return 0.
Proof.
  intros Hnone. unfold _read_meminfo_field.
  rewrite <- (app_nil_r (splitlines meminfo)).
  by rewrite read_field_skip.
Qed.

(** X17.  The first line whose name starts with the field decides, and
    the match is by prefix: when the lines before it do not start with the
    field and the line is a name, spaces, at most 4300 digits and [ kB],
    the value is the number times 1024, whatever the name goes on with
    after the field and whatever follows the line in the file. *)
Theorem read_meminfo_field_kb
    (int_other : pystr → option Z) (pre : list pystr)
    (field name pad digits rest : pystr) :
  Forall (λ l, Forall (λ c, is_linebreak c = false) l
               ∧ starts_with field l = false) pre →
  starts_with field name = true →
  name ≠ [] → Forall (λ c, isspace c = false) name →
  pad ≠ [] → Forall (λ c, c = 32%N) pad →
  digits ≠ [] → forallb is_digit digits = true →
  (length digits ≤ 4300)%nat →
  _read_meminfo_field int_other
    (unlines pre ++ (name ++ pad ++ digits ++ lit " kB") ++ 10%N :: rest)
    field
  = Return (decimal digits * 1024).
Proof.
  intros Hpre Hstart Hname Hname_ns Hpad Hpad_sp Hdig Hdigits Hlen.
  assert (Forall (λ c, isspace c = false) digits) as Hdig_ns.
  { apply Forall_forall. intros c Hc. apply digit_not_space.
    apply (proj1 (forallb_forall _ _) Hdigits). by apply list_elem_of_In. }
  assert (Forall (λ c, isspace c = true) pad) as Hpad_ws.
  { eapply Forall_impl; [exact Hpad_sp |]. by intros c ->. }
  unfold _read_meminfo_field.
  rewrite splitlines_unlines
    by (eapply Forall_impl; [exact Hpre |]; by intros l [? ?]).
  rewrite read_field_skip
    by (eapply Forall_impl; [exact Hpre |]; by intros l [? ?]).
  rewrite splitlines_line.
  - cbn [read_field]. rewrite (starts_with_longer _ _ _ Hstart).
    destruct pad as [| sp pad']; [done |].
    apply Forall_cons in Hpad_ws as [Hsp Hpad_ws'].
    cbn [app]. rewrite (split_ws_token _ _ _ Hname Hname_ns Hsp).
    rewrite (split_ws_skip _ _ Hpad_ws').
    change (lit " kB") with (32%N :: lit "kB").
    rewrite (split_ws_token digits 32%N (lit "kB") Hdig Hdig_ns eq_refl).
    unfold int_of_str. rewrite bool_decide_eq_false_2 by done.
    rewrite Hdigits. cbn [negb andb].
    by rewrite (proj2 (Nat.leb_le _ _) Hlen).
  - rewrite !Forall_app. repeat split.
    + eapply Forall_impl; [exact Hname_ns |].
      intros c. apply not_space_not_linebreak.
    + eapply Forall_impl; [exact Hpad_sp |]. by intros c ->.
    + eapply Forall_impl; [exact Hdig_ns |].
      intros c. apply not_space_not_linebreak.
    + by repeat constructor.
Qed.

(** X18.  A line that starts with the field but holds a single word, such
    as a name without a value, raises [IndexError]; the lines after it are
    not looked at. *)
Theorem read_meminfo_field_short_line
    (int_other : pystr → option Z) (pre : list pystr)
    (field name rest : pystr) :
  Forall (λ l, Forall (λ c, is_linebreak c = false) l
               ∧ starts_with field l = false) pre →
  starts_with field name = true →
  name ≠ [] → Forall (λ c, isspace c = false) name →
  _read_meminfo_field int_other (unlines pre ++ name ++ 10%N :: rest) field
  = Raise IndexError.
Proof.
  intros Hpre Hstart Hname Hname_ns. unfold _read_meminfo_field.
  rewrite splitlines_unlines
    by (eapply Forall_impl; [exact Hpre |]; by intros l [? ?]).
  rewrite read_field_skip
    by (eapply Forall_impl; [exact Hpre |]; by intros l [? ?]).
  rewrite splitlines_line.
  - cbn [read_field]. rewrite Hstart.
    by rewrite (split_ws_single _ Hname Hname_ns).
  - eapply Forall_impl; [exact Hname_ns |].
    intros c. apply not_space_not_linebreak.
Qed.

Lemma split_on_none (sep : N) (s : pystr) :
  sep ∉ s → split_on sep s = [s].
Proof.
  induction s as [| c s IH]; intros Hs; [done |].
  apply not_elem_of_cons in Hs as [Hc Hs]. cbn [split_on].
  rewrite (proj2 (N.eqb_neq c sep)) by done. by rewrite IH.
Qed.

(** Two fields around the one separator. *)
Lemma split_on_two (sep : N) (d p : pystr) :
  sep ∉ d → sep ∉ p → split_on sep (d ++ sep :: p) = [d; p].
Proof.
  intros Hd Hp. induction d as [| c d IH].
  - cbn [app split_on]. by rewrite N.eqb_refl, split_on_none.
  - apply not_elem_of_cons in Hd as [Hc Hd]. cbn [app split_on].
    rewrite (proj2 (N.eqb_neq c sep)) by done. by rewrite IH.
Qed.

Lemma report_cards (cards : list (pystr * pystr)) (rest : list pystr) :
  Forall (λ card, (comma ∉ fst card) ∧ (comma ∉ snd card)) cards →
  report (((λ card, fst card ++ comma :: snd card) <$> cards) ++ rest) =
    ((report rest).1, (concat (card_records <$> cards)) ++ (report rest).2).
Proof.
  induction cards as [| [d p] cards IH]; intros Hall.
  - cbn. by destruct (report rest).
  - apply Forall_cons in Hall as [[Hd Hp] Hall]. cbn [fst snd] in Hd, Hp.
    rewrite !fmap_cons. cbn [fst snd app concat]. cbn [report].
    rewrite (split_on_two comma d p Hd Hp). cbn [fmap list_fmap].
    rewrite (IH Hall). done.
Qed.

(** X19.  When [nvidia-smi] is found and exits with 0, the script runs it
    once with the query for the driver version and the persistence mode,
    and logs, card after card in the order of the output, the two fields
    of each line around the comma, stripped. *)
Theorem check_nvidia_driver_reports
    (which : pystr → option pystr)
    (run : list pystr → outcome CompletedProcess)
    (path : pystr) (result : CompletedProcess) (cards : list (pystr * pystr)) :
  let argv :=
    [ path; lit "--query-gpu=driver_version,persistence_mode";
      lit "--format=csv,noheader" ] in
  which (lit "nvidia-smi") = Some path →
  run argv = Return result →
  returncode result = 0 →
  splitlines (strip (stdout result))
    = (λ card, fst card ++ comma :: snd card) <$> cards →
  Forall (λ card, (comma ∉ fst card) ∧ (comma ∉ snd card)) cards →
  check_nvidia_driver which run =
    (Return (),
     Log INFO "--- NVIDIA Driver ---" [] :: Run argv
       :: concat (card_records <$> cards)).
Proof.
  intros argv Hwhich Hrun Hcode Hlines Hcards.
  unfold check_nvidia_driver. rewrite Hwhich. fold argv. rewrite Hrun, Hcode.
  cbn [Z.eqb]. rewrite Hlines.
  rewrite <- (app_nil_r (_ <$> cards)). rewrite (report_cards _ _ Hcards).
  cbn [report fst snd]. by rewrite app_nil_r.
Qed.

(** X20.  A line of the output that does not have exactly one comma, such
    as a message of the tool, raises [ValueError]; the cards before it
    have been logged and the lines after it are not. *)
Theorem check_nvidia_driver_malformed
    (which : pystr → option pystr)
    (run : list pystr → outcome CompletedProcess)
    (path : pystr) (result : CompletedProcess)
    (cards : list (pystr * pystr)) (bad : pystr) (rest : list pystr) :
  let argv :=
    [ path; lit "--query-gpu=driver_version,persistence_mode";
      lit "--format=csv,noheader" ] in
  which (lit "nvidia-smi") = Some path →
  run argv = Return result →
  returncode result = 0 →
  splitlines (strip (stdout result))
    = ((λ card, fst card ++ comma :: snd card) <$> cards) ++ bad :: rest →
  Forall (λ card, (comma ∉ fst card) ∧ (comma ∉ snd card)) cards →
  length (split_on comma bad) ≠ 2%nat →
  check_nvidia_driver which run =
    (Raise ValueError,
     Log INFO "--- NVIDIA Driver ---" [] :: Run argv
       :: concat (card_records <$> cards)).
Proof.
  intros argv Hwhich Hrun Hcode Hlines Hcards Hbad.
  unfold check_nvidia_driver. rewrite Hwhich. fold argv. rewrite Hrun, Hcode.
  cbn [Z.eqb]. rewrite Hlines, (report_cards _ _ Hcards).
  assert (report (bad :: rest) = (Raise ValueError, [])) as ->.
  { cbn [report]. destruct (split_on comma bad) as [| a [| b [| c l]]];
      cbn in *; done. }
  cbn [fst snd]. by rewrite app_nil_r.
Qed.

(** X21.  A missing or failing [nvidia-smi] is not fatal: when the tool
    is not on the path, the script logs one warning and runs nothing;
    when the tool exits with another status than 0, the script logs one
    warning with the stripped error output and does not read the
    output. *)
Theorem check_nvidia_driver_warns
    (which : pystr → option pystr)
    (run : list pystr → outcome CompletedProcess) :
  (which (lit "nvidia-smi") = None →
   check_nvidia_driver which run =
     (Return (),
      [ Log INFO "--- NVIDIA Driver ---" [];
        Log WARNING "nvidia-smi not found on PATH." [] ]))
  ∧ (∀ path result,
       let argv :=
         [ path; lit "--query-gpu=driver_version,persistence_mode";
           lit "--format=csv,noheader" ] in
       which (lit "nvidia-smi") = Some path →
       run argv = Return result →
       returncode result ≠ 0 →
       check_nvidia_driver which run =
         (Return (),
          [ Log INFO "--- NVIDIA Driver ---" []; Run argv;
            Log WARNING "nvidia-smi failed: %s" [strip (stderr result)] ])).
Proof.
  split.
  - intros Hwhich. unfold check_nvidia_driver. by rewrite Hwhich.
  - intros path result argv Hwhich Hrun Hcode.
    unfold check_nvidia_driver. rewrite Hwhich. fold argv. rewrite Hrun.
    by rewrite (proj2 (Z.eqb_neq _ _) Hcode).
Qed.

(** The properties on a sample of files and outputs. *)

Ltac absent :=
  let H := fresh in
  cbn; intros H;
  repeat (apply elem_of_cons in H as [H | H]; [discriminate H |]);
  by apply elem_of_nil in H.

Ltac no_commas := repeat first [ split; [absent | absent] | constructor ].

Lemma read_meminfo_field_missing_witness :
  _read_meminfo_field (λ _, None) Bench.meminfo (lit "Cached") = Return 0.
Proof.
  apply (read_meminfo_field_missing (λ _, None) Bench.meminfo (lit "Cached")).
  vm_compute. repeat constructor.
Defined.

Lemma read_meminfo_field_kb_witness :
  _read_meminfo_field (λ _, None) Bench.meminfo (lit "MemFree")
  = Return (1024 * 1024).
Proof.
  exact (read_meminfo_field_kb (λ _, None)
           [lit "MemTotal:       16384 kB"]
           (lit "MemFree") (lit "MemFree:") (lit "         ") (lit "1024")
           (unlines [lit "MemAvailable:    2048 kB"; lit "SwapTotal:"])
           ltac:(vm_compute; repeat constructor)
           eq_refl
           ltac:(discriminate)
           ltac:(vm_compute; repeat constructor)
           ltac:(discriminate)
           ltac:(vm_compute; repeat constructor)
           ltac:(discriminate)
           eq_refl
           ltac:(vm_compute; lia)).
Defined.

Lemma read_meminfo_field_short_line_witness :
  _read_meminfo_field (λ _, None) Bench.meminfo (lit "SwapTotal")
  = Raise IndexError.
Proof.
  exact (read_meminfo_field_short_line (λ _, None)
           [ lit "MemTotal:       16384 kB"; lit "MemFree:         1024 kB";
             lit "MemAvailable:    2048 kB" ]
           (lit "SwapTotal") (lit "SwapTotal:") []
           ltac:(vm_compute; repeat constructor)
           eq_refl
           ltac:(discriminate)
           ltac:(vm_compute; repeat constructor)).
Defined.

Lemma check_nvidia_driver_reports_witness :
  check_nvidia_driver Bench.which_smi Bench.two_cards =
    (Return (),
     [ Log INFO "--- NVIDIA Driver ---" [];
       Run [ lit "/usr/bin/nvidia-smi";
             lit "--query-gpu=driver_version,persistence_mode";
             lit "--format=csv,noheader" ];
       Log INFO "Driver version : %s" [lit "535.129.03"];
       Log INFO "Persistence    : %s" [lit "Enabled"];
       Log INFO "Driver version : %s" [lit "535.129.03"];
       Log INFO "Persistence    : %s" [lit "Disabled"] ]).
Proof.
  exact (check_nvidia_driver_reports Bench.which_smi Bench.two_cards
           (lit "/usr/bin/nvidia-smi")
           (mkCompleted 0
              (lit "535.129.03, Enabled" ++ [10%N]
               ++ lit "535.129.03 , Disabled" ++ [10%N]) [])
           [ (lit "535.129.03", lit " Enabled");
             (lit "535.129.03 ", lit " Disabled") ]
           eq_refl eq_refl eq_refl eq_refl
           ltac:(no_commas)).
Defined.

Lemma check_nvidia_driver_malformed_witness :
  check_nvidia_driver Bench.which_smi Bench.garbled =
    (Raise ValueError,
     [ Log INFO "--- NVIDIA Driver ---" [];
       Run [ lit "/usr/bin/nvidia-smi";
             lit "--query-gpu=driver_version,persistence_mode";
             lit "--format=csv,noheader" ];
       Log INFO "Driver version : %s" [lit "535.129.03"];
       Log INFO "Persistence    : %s" [lit "Enabled"] ]).
Proof.
  exact (check_nvidia_driver_malformed Bench.which_smi Bench.garbled
           (lit "/usr/bin/nvidia-smi")
           (mkCompleted 0
              (lit "535.129.03, Enabled" ++ [10%N]
               ++ lit "No devices were found" ++ [10%N]
               ++ lit "535.129.03, Disabled" ++ [10%N]) [])
           [ (lit "535.129.03", lit " Enabled") ]
           (lit "No devices were found")
           [ lit "535.129.03, Disabled" ]
           eq_refl eq_refl eq_refl eq_refl
           ltac:(no_commas)
           ltac:(vm_compute; lia)).
Defined.

Lemma check_nvidia_driver_warns_witness :
  check_nvidia_driver (λ _, None) Bench.two_cards =
    (Return (),
     [ Log INFO "--- NVIDIA Driver ---" [];
       Log WARNING "nvidia-smi not found on PATH." [] ])
  ∧ check_nvidia_driver Bench.which_smi Bench.failing =
      (Return (),
       [ Log INFO "--- NVIDIA Driver ---" [];
         Run [ lit "/usr/bin/nvidia-smi";
               lit "--query-gpu=driver_version,persistence_mode";
               lit "--format=csv,noheader" ];
         Log WARNING "nvidia-smi failed: %s" [lit "NVIDIA-SMI has failed"] ]).
Proof.
  split.
  - apply (proj1 (check_nvidia_driver_warns (λ _, None) Bench.two_cards)).
    reflexivity.
  - exact (proj2 (check_nvidia_driver_warns Bench.which_smi Bench.failing)
             (lit "/usr/bin/nvidia-smi")
             (mkCompleted 9 (lit "x,y,z")
                (lit "NVIDIA-SMI has failed" ++ [10%N]))
             eq_refl eq_refl ltac:(discriminate)).
Defined.

End HardwareProperties.

(** * The further properties on the demo machines *)

Lemma FastBrain_constructs_witness :
  ∃ (self : nat) (w' : @World Demo.four),
    FastBrain (Env := Demo.four) None None None
        (Demo.loaded Demo.four 0%nat 3%nat)
      = (Ok self, w')
    ∧ heap (Demo.loaded Demo.four 0%nat 3%nat) !! self = None
    ∧ heap w' !! self
      = Some (mkFastBrainObj (Env := Demo.four) (Some Demo.model_file)
                (Some 7%nat))
    ∧ (∀ l, l ≠ self →
            heap w' !! l = heap (Demo.loaded Demo.four 0%nat 3%nat) !! l)
    ∧ fs w' = {[ Demo.model_file := File ]} ∧ ext w' = 1%nat
    ∧ ∃ evs, trace w' = [] ++ evs
        ∧ load_calls evs =
            [mkLoadArgs (path_str Demo.model_file) (-1) 4096 false]
        ∧ chat_calls evs = [].
Proof.
  apply (FastBrain_constructs (Env := Demo.four) None None None
           (Demo.loaded Demo.four 0%nat 3%nat) 7%nat 1%nat).
  - vm_compute. eauto.
  - reflexivity.
Defined.

Lemma fresh_brain_answers_witness :
  ∃ (self : nat) (w1 w2 : @World Demo.four),
    FastBrain (Env := Demo.four) None None None (Demo.installed Demo.four 0%nat)
      = (Ok self, w1)
    ∧ generate_response self (lit "hi") None None None None w1
      = (Ok (lit "Four"), w2)
    ∧ ∃ evs, trace w2 = [] ++ evs
        ∧ load_calls evs =
            [mkLoadArgs (path_str Demo.model_file) (-1) 4096 false]
        ∧ chat_calls evs =
            [(7%nat, request_of (lit "hi") None None None None)].
Proof.
  apply (fresh_brain_answers (Env := Demo.four) None None None
           (Demo.installed Demo.four 0%nat) 7%nat 1%nat 2%nat
           (lit "hi") None None None None Demo.reply [] (mkUsage 3)).
  - vm_compute. eauto.
  - reflexivity.
  - reflexivity.
Defined.

Lemma generate_response_empty_choices_witness :
  ∃ w' : @World Bench.silent,
    generate_response (Env := Bench.silent) 0 (lit "hi") None None None None
        (Demo.loaded Bench.silent 0%nat 7%nat)
      = (Err IndexError, w')
    ∧ ext w' = 1%nat
    ∧ heap w' = heap (Demo.loaded Bench.silent 0%nat 7%nat)
    ∧ last (trace w')
      = Some (EvChat (Env := Bench.silent) 7%nat
                (request_of (lit "hi") None None None None))
    ∧ ∃ evs, trace w' = [] ++ evs
        ∧ chat_calls evs =
            [(7%nat, request_of (lit "hi") None None None None)].
Proof.
  apply (generate_response_empty_choices (Env := Bench.silent) 0 (lit "hi")
           None None None None (Demo.loaded Bench.silent 0%nat 7%nat)
           7%nat (mkUsage 0) 1%nat);
    reflexivity.
Defined.

Lemma helper_and_wrapper_agree_witness :
  MODEL_DIR (Env := Demo.four) /: FILENAME
    = DEFAULT_MODEL_PATH (Env := Demo.four)
  ∧ ∃ w1 : @World Demo.four,
      download_fast_brain_model (Env := Demo.four)
          (Demo.installed Demo.four 0%nat)
        = (Ok (DEFAULT_MODEL_PATH (Env := Demo.four)), w1)
      ∧ ∃ evs,
          trace (FastBrain None None None w1).2 = trace w1 ++ evs
          ∧ load_calls evs =
              [ mkLoadArgs (path_str (DEFAULT_MODEL_PATH (Env := Demo.four)))
                  (-1) 4096 false ].
Proof.
  apply (helper_and_wrapper_agree (Env := Demo.four) Demo.root None None
           (Demo.installed Demo.four 0%nat)).
  - reflexivity.
  - reflexivity.
  - vm_compute. eauto.
Defined.

Lemma download_when_absent_witness :
  ∃ w' : @World Demo.four,
    download_fast_brain_model (Env := Demo.four) (Demo.bare Demo.four 0%nat)
      = (Ok Demo.model_file, w')
    ∧ ext w' = 1%nat
    ∧ fs w' !! Demo.model_file = Some File
    ∧ ∃ evs, trace w' = [] ++ evs
        ∧ download_calls evs =
            [(REPO_ID, FILENAME, MODEL_DIR (Env := Demo.four))].
Proof.
  assert (MODEL_DIR (Env := Demo.four) /: FILENAME = Demo.model_file)
    as Htarget by (vm_compute; reflexivity).
  assert (Path_of_str (path_str Demo.model_file) = Demo.model_file)
    as Hback by (vm_compute; reflexivity).
  destruct (download_when_absent (Env := Demo.four)
              (Demo.bare Demo.four 0%nat)
              (Ok (path_str (MODEL_DIR (Env := Demo.four) /: FILENAME)))
              1%nat
              (<[MODEL_DIR (Env := Demo.four) /: FILENAME := File]>
                 (make_dirs (lineage (MODEL_DIR (Env := Demo.four))) ∅)))
    as (_ & _ & w' & Hrun & Hfs & Hext & Hevs).
  - apply lookup_empty.
  - apply Forall_forall. intros q _. cbn [fs Demo.bare].
    rewrite lookup_empty. discriminate.
  - cbv [hf_hub_download Demo.four Demo.env]. reflexivity.
  - exists w'. rewrite Htarget, Hback in Hrun. rewrite Htarget in Hfs.
    split; [exact Hrun |]. split; [exact Hext |].
    rewrite Hfs. split; [apply lookup_insert_eq | exact Hevs].
Defined.

Lemma download_blocked_by_file_witness :
  ∃ w' : @World Demo.four,
    download_fast_brain_model (Env := Demo.four)
        (Bench.blocked Demo.four 0%nat)
      = (Err (FileExistsError (parent Demo.model_file)), w')
    ∧ ext w' = 0%nat
    ∧ ∃ evs, trace w' = [] ++ evs ∧ download_calls evs = [].
Proof.
  apply (download_blocked_by_file (Env := Demo.four)
           (Bench.blocked Demo.four 0%nat)).
  - vm_compute. reflexivity.
  - vm_compute. repeat (constructor; [discriminate |]). constructor.
  - vm_compute. reflexivity.
Defined.


Lemma interactive_loop_prints_answer_witness :
  ∃ w' : @World Demo.four,
    interactive_loop (Env := Demo.four) 0 [Line (lit " hi "); Line (lit "x")]
        (Demo.loaded Demo.four 0%nat 7%nat)
      = interactive_loop 0 [Line (lit "x")] w'
    ∧ heap w' = heap (Demo.loaded Demo.four 0%nat 7%nat)
    ∧ fs w' = fs (Demo.loaded Demo.four 0%nat 7%nat)
    ∧ ext w' = 1%nat
    ∧ ∃ evs, trace w' = [] ++ evs
        ∧ chat_calls evs =
            [(7%nat, request_of (lit "hi") None None None None)]
        ∧ (∃ t, last evs
                = Some (EvLog INFO "(Response time: %.2fs)" [ANum t]))
        ∧ EvPrint (10%N :: lit "A.E.G.I.S: " ++ lit "Four") ∈ evs.
Proof.
  apply (interactive_loop_prints_answer (Env := Demo.four) 0 (lit " hi ")
           [Line (lit "x")] (Demo.loaded Demo.four 0%nat 7%nat)
           7%nat Demo.reply [] (mkUsage 3) 1%nat).
  - discriminate.
  - reflexivity.
  - reflexivity.
  - reflexivity.
Defined.

Lemma interactive_loop_failure_stops_witness :
  ∃ w' : @World Demo.broken,
    interactive_loop (Env := Demo.broken) 0
        [Line (lit " hi "); Line (lit "x")]
        (Demo.loaded Demo.broken 0%nat 7%nat)
      = (Err (Raised "context window exceeded"), w')
    ∧ last (trace w')
      = Some (EvChat (Env := Demo.broken) 7%nat
                (request_of (lit "hi") None None None None))
    ∧ interactive_loop (Env := Demo.broken) 0
          [Line (lit " hi "); Line (lit "x")]
          (Demo.loaded Demo.broken 0%nat 7%nat)
      = interactive_loop 0 [Line (lit " hi ")]
          (Demo.loaded Demo.broken 0%nat 7%nat).
Proof.
  apply (interactive_loop_failure_stops (Env := Demo.broken) 0 (lit " hi ")
           [Line (lit "x")] (Demo.loaded Demo.broken 0%nat 7%nat)
           7%nat (Raised "context window exceeded") 1%nat).
  - discriminate.
  - reflexivity.
  - reflexivity.
  - reflexivity.
Defined.

Lemma main_interactive_session_witness :
  ∃ w' : @World Demo.four,
    main (Env := Demo.four) false
        [ Line (lit "  "); Line (lit " hi "); Line (lit " QuIt ");
          Line (lit "more") ]
        (Demo.installed Demo.four 0%nat)
      = (Ok (), w')
    ∧ fs w' = fs (Demo.installed Demo.four 0%nat)
    ∧ ∃ evs, trace w' = [] ++ evs
        ∧ load_calls evs =
            [mkLoadArgs (path_str Demo.model_file) (-1) 4096 false]
        ∧ chat_calls evs =
            (λ s, (7%nat, request_of s None None None None)) <$> [lit "hi"].
Proof.
  apply (main_interactive_session (Env := Demo.four)
           [ Line (lit "  "); Line (lit " hi "); Line (lit " QuIt ");
             Line (lit "more") ]
           (Demo.installed Demo.four 0%nat) 7%nat 1%nat).
  - vm_compute. eauto.
  - reflexivity.
  - intros h' req x'. exists Demo.reply, [], (mkUsage 3), (S x'). reflexivity.
Defined.
